(** * DayOneJSONtoHTML: the list-boundary normalizer and the entry pipeline

    A shallow embedding of [DayOneJSONtoHTML.py].  A Python [str] is a
    sequence of Unicode code points, so text is a list of code points here;
    the library calls the converter makes on text ([str.splitlines],
    [str.strip], [str.join], the compiled pattern [list_start_re]) are
    written out with the behaviour CPython gives them. *)

From Stdlib Require Import List NArith ZArith Bool Ascii String Lia Setoid.
From Stdlib Require Import DecimalString DecimalNat.
Import ListNotations.

Set Implicit Arguments.

(** ** Text *)

Definition char := N.
Definition str := list char.

(** An ASCII literal of the source as a [str]. *)
Definition lit (s : string) : str := map N_of_ascii (list_ascii_of_string s).

Definition LF : char := 10%N.
Definition CR : char := 13%N.
(** The double quote, which the literals of this file never contain. *)
Definition DQ : str := [34%N].

Definition str_eqb (a b : str) : bool :=
  if list_eq_dec N.eq_dec a b then true else false.

Module Py.

Local Open Scope N_scope.

(** [str.isspace] on one code point (Py_UNICODE_ISSPACE); the class [\s]
    of a [str] pattern is the same set. *)
Definition isspace (c : char) : bool :=
  ((9 <=? c) && (c <=? 13)) || ((28 <=? c) && (c <=? 31)) || (c =? 32)
  || (c =? 133) || (c =? 160) || (c =? 5760)
  || ((8192 <=? c) && (c <=? 8202))
  || (c =? 8232) || (c =? 8233) || (c =? 8239) || (c =? 8287)
  || (c =? 12288).

(** The line boundaries of [str.splitlines] (Py_UNICODE_ISLINEBREAK). *)
Definition islinebreak (c : char) : bool :=
  ((10 <=? c) && (c <=? 13)) || ((28 <=? c) && (c <=? 30))
  || (c =? 133) || (c =? 8232) || (c =? 8233).

(** [s.splitlines()]: lines without their terminators; CR LF is one
    terminator; no empty last line after a final terminator. *)
Fixpoint splitlines (s : str) : list str :=
  match s with
  | [] => []
  | c :: rest =>
      if islinebreak c then
        [] :: match rest with
              | c' :: rest' =>
                  if (c =? CR) && (c' =? LF) then splitlines rest'
                  else splitlines rest
              | [] => []
              end
      else
        match splitlines rest with
        | [] => [[c]]
        | l :: ls => (c :: l) :: ls
        end
  end.

Fixpoint lstrip (s : str) : str :=
  match s with
  | c :: rest => if isspace c then lstrip rest else s
  | [] => []
  end.

Definition rstrip (s : str) : str := rev (lstrip (rev s)).

(** [s.strip()] *)
Definition strip (s : str) : str := rstrip (lstrip s).

(** [sep.join(parts)] *)
Fixpoint join (sep : str) (parts : list str) : str :=
  match parts with
  | [] => []
  | [p] => p
  | p :: ps => p ++ sep ++ join sep ps
  end.

(** [s.replace(old, new)] for a one-character [old]. *)
Definition replace (old : char) (new : str) (s : str) : str :=
  flat_map (fun c => if c =? old then new else [c]) s.

(** Truthiness of a [str]. *)
Definition truthy (s : str) : bool :=
  match s with [] => false | _ => true end.

End Py.

(** ** [normalize_list_boundaries] *)

Module Normalizer.

Local Open Scope N_scope.

Definition is_bullet (c : char) : bool :=
  (c =? 45) || (c =? 43) || (c =? 42).            (* [-+*] *)
Definition is_digit (c : char) : bool :=
  (48 <=? c) && (c <=? 57).                        (* [0-9] *)
Definition is_closer (c : char) : bool :=
  (c =? 46) || (c =? 41).                          (* [.)] *)

Fixpoint skip_digits (s : str) : str :=
  match s with
  | c :: rest => if is_digit c then skip_digits rest else s
  | [] => []
  end.

(** [\s+] at the head of [s] *)
Definition space_next (s : str) : bool :=
  match s with
  | c :: _ => Py.isspace c
  | [] => false
  end.

(** [bool(list_start_re.match(line))] for
    [list_start_re = re.compile(r'^\s*(?:[-+*]|[0-9]+[.)])\s+')].
    The classes [\s], [[-+*]], [[0-9]] and [[.)]] are pairwise disjoint,
    so the greedy scan below never has to back off. *)
Definition list_start_re_match (line : str) : bool :=
  match Py.lstrip line with
  | c :: rest =>
      if is_bullet c then space_next rest
      else if is_digit c then
        match skip_digits rest with
        | d :: rest' => is_closer d && space_next rest'
        | [] => false
        end
      else false
  | [] => false
  end.

(** The pattern itself, [^\s*(?:[-+*]|[0-9]+[.)])\s+], and which texts it
    matches in full; [re.match] asks for a prefix of the line that does. *)
Inductive regex : Type :=
| Class (p : char -> bool)
| Seq (r s : regex)
| Alt (r s : regex)
| Star (r : regex)
| Plus (r : regex).

Inductive matches : regex -> str -> Prop :=
| MClass p c : p c = true -> matches (Class p) [c]
| MSeq r s u v : matches r u -> matches s v -> matches (Seq r s) (u ++ v)
| MAltL r s u : matches r u -> matches (Alt r s) u
| MAltR r s u : matches s u -> matches (Alt r s) u
| MStar0 r : matches (Star r) []
| MStarS r u v :
    matches r u -> matches (Star r) v -> matches (Star r) (u ++ v)
| MPlus r u v :
    matches r u -> matches (Star r) v -> matches (Plus r) (u ++ v).

Definition list_start_re : regex :=
  Seq (Star (Class Py.isspace))
      (Seq (Alt (Class is_bullet)
                (Seq (Plus (Class is_digit)) (Class is_closer)))
           (Plus (Class Py.isspace))).

(** The loop state: [out] and [prev_blank]. *)
Definition state := (list str * bool)%type.

(** One iteration of [for i, line in enumerate(lines)]. *)
Definition step (st : state) (line : str) : state :=
  let '(out, prev_blank) := st in
  let is_list_item := list_start_re_match line in
  let out := if is_list_item && negb prev_blank then out ++ [[]] else out in
  (out ++ [line], str_eqb (Py.strip line) []).

(** [if out and out[-1] != "": out.append("")] *)
Definition ensure_trailing (out : list str) : list str :=
  match out with
  | [] => out
  | _ :: _ => if negb (str_eqb (last out []) []) then out ++ [[]] else out
  end.

(** The list [out] just before the final join. *)
Definition normalized_lines (md_text : str) : list str :=
  let lines := Py.splitlines md_text in
  let '(out, _) := fold_left step lines ([], true) in
  ensure_trailing out.

Definition normalize_list_boundaries (md_text : str) : str :=
  Py.join [LF] (normalized_lines md_text).

End Normalizer.

Import Normalizer.


(** ** What the converter takes from its libraries

    [datetime], [pytz] and [os.path] are not part of the program; the
    pipeline is stated over any implementation of the calls it makes. *)

Inductive exn : Type :=
| ValueError            (* strptime: the text does not match the format *)
| UnknownTimeZoneError  (* pytz.timezone: no such zone *)
| OverflowError.        (* astimezone: the local date is out of range *)

Inductive result (A : Type) : Type :=
| Ok (a : A)
| Raise (e : exn).
Arguments Ok {A} a.
Arguments Raise {A} e.

Class Library : Type := {
  (** a JSON number *)
  number : Type;
  number_truthy : number -> bool;            (* bool(n) *)
  number_str : number -> str;                (* format(n, '') *)
  number_1f : number -> str;                 (* format(n, '.1f') *)
  (** datetime and pytz *)
  datetime : Type;
  tzinfo : Type;
  strptime : str -> str -> result datetime;  (* datetime.strptime(s, fmt) *)
  replace_tzinfo : datetime -> tzinfo -> datetime;
  pytz_UTC : tzinfo;
  pytz_timezone : str -> result tzinfo;
  astimezone : datetime -> tzinfo -> result datetime;
  (** formatting with the directives the converter uses, taken as total *)
  strftime : datetime -> str -> str;
  (** the UTC instant of an aware datetime; [<] on the aware datetimes that
      pytz builds compares these *)
  instant : datetime -> Z;
  (** os.path *)
  os_sep : char;
  path_join : str -> str -> str;
  path_exists : str -> bool;
  path_abspath : str -> str
}.

(** ** A state and exception monad for the body of the loop

    The state is the list [dates]; an exception keeps the state reached when
    it is raised, as a Python exception leaves the list as it was mutated. *)
Module Eff.

Definition M (S A : Type) : Type := S -> result A * S.

Definition ret {S A : Type} (a : A) : M S A := fun s => (Ok a, s).

Definition bind {S A B : Type} (m : M S A) (k : A -> M S B) : M S B :=
  fun s =>
    match m s with
    | (Ok a, s') => k a s'
    | (Raise e, s') => (Raise e, s')
    end.

(** a library call that may raise *)
Definition call {S A : Type} (r : result A) : M S A := fun s => (r, s).

(** [dates.append(d)] *)
Definition append {A : Type} (d : A) : M (list A) unit :=
  fun s => (Ok tt, s ++ [d]).

(** [try: body  except Exception: handler] *)
Definition try_except {S A : Type} (body handler : M S A) : M S A :=
  fun s =>
    match body s with
    | (Ok a, s') => (Ok a, s')
    | (Raise _, s') => handler s'
    end.

End Eff.

Declare Scope eff_scope.
Delimit Scope eff_scope with eff.
Notation "x <- m ;; k" := (Eff.bind m (fun x => k))
  (at level 61, m at next level, right associativity) : eff_scope.

(** The double quote of a template is written [~] in the literals below:
    the source has no [~]. *)
Definition html (s : string) : str :=
  Py.replace 126%N DQ (lit s).

(** [n] spaces *)
Definition sp (n : nat) : str := repeat 32%N n.

(** ** [convert_dayone_json_to_single_html]: the data it reads *)

Section Converter.

Context {L : Library}.

(** The entries of the export, with the field names of the JSON.  A field
    that [.get] may find missing is an option. *)
Record Location : Type := {
  latitude : option number;
  longitude : option number;
  placeName : str;
  localityName : str;
  country : str
}.

Record Weather : Type := {
  temperatureCelsius : option number;
  conditionsDescription : option str
}.

Record MediaRef : Type := {
  md5 : option str;
  identifier : option str
}.

Record Entry : Type := {
  text : str;
  creationDate : str;
  timeZone : option str;
  location : option Location;
  weather : option Weather;
  photos : list MediaRef
}.

(** Truthiness of what [.get] returns. *)
Definition truthy_str (v : option str) : bool :=
  match v with Some s => Py.truthy s | None => false end.

(** [a or b] *)
Definition py_or (a b : option str) : option str :=
  if truthy_str a then a else b.

(** *** The date of an entry (lines 42-63) *)

Definition format_date (entry : Entry) : Eff.M (list datetime) str :=
  let date_str := creationDate entry in
  Eff.try_except
    (date <- Eff.call (strptime date_str (lit "%Y-%m-%dT%H:%M:%SZ")) ;;
     let date := replace_tzinfo date pytz_UTC in
     let timeZone := timeZone entry in
     local_timezone <-
       match timeZone with
       | Some name =>
           if Py.truthy name then Eff.call (pytz_timezone name)
           else Eff.ret pytz_UTC
       | None => Eff.ret pytz_UTC
       end ;;
     local_date <- Eff.call (astimezone date local_timezone) ;;
     _ <- Eff.append local_date ;;
     Eff.ret (strftime local_date (lit "%d %b %Y %I:%M %p")))%eff
    (Eff.ret date_str).

(** *** The location line (lines 76-93) *)

Definition location_text (place locality country : str) : str :=
  Py.join (lit ", ") (filter Py.truthy [place; locality; country]).

Definition maps_url (lat lng : number) : str :=
  lit "https://www.google.com/maps?q="
    ++ number_str lat ++ lit "," ++ number_str lng.

Definition location_link (maps_url location_text : str) : str :=
  html "<p class=~muted-text~>"
    ++ html "<p><i class=~bi bi-geo-alt-fill text-danger~></i> "
    ++ html "<a href=~" ++ maps_url ++ html "~ target=~_blank~>"
    ++ location_text ++ lit "</a></p>".

(** [loc = entry.get("location", {})] and the [loc.get] calls *)
Definition loc_get {A : Type} (entry : Entry) (field : Location -> A)
    (default : A) : A :=
  match location entry with
  | Some loc => field loc
  | None => default
  end.

Definition lat (entry : Entry) : option number :=
  loc_get entry latitude None.
Definition lng (entry : Entry) : option number :=
  loc_get entry longitude None.
Definition place (entry : Entry) : str := loc_get entry placeName [].
Definition locality (entry : Entry) : str := loc_get entry localityName [].
Definition country_of (entry : Entry) : str := loc_get entry country [].

Definition location_html (entry : Entry) : str :=
  match lat entry, lng entry with
  | Some lat', Some lng' =>
      if number_truthy lat' && number_truthy lng' then
        location_link
          (maps_url lat' lng')
          (location_text (place entry) (locality entry) (country_of entry))
      else []
  | _, _ => []
  end.

(** *** The weather line (lines 94-106) *)

Definition degrees_C : str := [176%N; 67%N].

(** [weather_info = entry.get('weather', {})] and its [.get] calls *)
Definition wx_temp (entry : Entry) : option number :=
  match weather entry with
  | Some w => temperatureCelsius w
  | None => None
  end.

Definition wx_description (entry : Entry) : option str :=
  match weather entry with
  | Some w => conditionsDescription w
  | None => None
  end.

Definition wx_line (entry : Entry) : str :=
  match wx_temp entry with
  | Some t =>
      match wx_description entry with
      | Some d =>
          if Py.truthy d then number_1f t ++ degrees_C ++ lit ", " ++ d
          else number_1f t ++ degrees_C
      | None => number_1f t ++ degrees_C
      end
  | None =>
      match wx_description entry with
      | Some d => if Py.truthy d then d else []
      | None => []
      end
  end.

(** *** Photos (lines 117-138) *)

Definition photo_exts : list str := [lit ".jpg"; lit ".jpeg"; lit ".png"].

Definition photo_div (url safe_url : str) : str :=
  [LF] ++ sp 28 ++ html "<div class=~col-md-4~>"
  ++ [LF] ++ sp 28 ++ html "<img src=~" ++ url
  ++ html "~ class=~img-fluid rounded mb-3~"
  ++ [LF] ++ sp 32 ++ html "alt=~Photo~"
  ++ [LF] ++ sp 32 ++ html "data-bs-toggle=~modal~"
  ++ [LF] ++ sp 32 ++ html "data-bs-target=~#photoModal~"
  ++ [LF] ++ sp 32
  ++ html "onclick=~document.getElementById('modalImage').src='"
  ++ safe_url ++ html "'~>"
  ++ [LF] ++ sp 28 ++ lit "</div>"
  ++ [LF] ++ sp 28.

(** what [media_html.append] receives for the file at [path] *)
Definition photo_html (path : str) : str :=
  let url := lit "file:///"
               ++ Py.replace os_sep (lit "/") (path_abspath path) in
  let safe_url := Py.replace 39%N [92%N; 39%N] url in
  photo_div url safe_url.

(** the inner [for ext in ...] with its [break] *)
Fixpoint try_exts (photos_dir filename : str) (exts : list str)
  : list str :=
  match exts with
  | [] => []
  | ext :: rest =>
      let path := path_join photos_dir (filename ++ ext) in
      if path_exists path then [photo_html path]
      else try_exts photos_dir filename rest
  end.

(** [filename = photo.get("md5") or photo.get("identifier")] *)
Definition filename_of (photo : MediaRef) : option str :=
  py_or (md5 photo) (identifier photo).

(** what one photo adds to [media_html] *)
Definition photo_media (photos_dir : str) (photo : MediaRef) : list str :=
  match filename_of photo with
  | Some filename =>
      if Py.truthy filename then try_exts photos_dir filename photo_exts
      else []
  | None => []
  end.

Definition photos_media (photos_dir : str) (entry : Entry) : list str :=
  flat_map (photo_media photos_dir) (photos entry).

(** *** The loop over the entries, as far as [dates] goes *)

Fixpoint entries_loop (entries : list Entry)
  : Eff.M (list datetime) (list str) :=
  match entries with
  | [] => Eff.ret []
  | entry :: rest =>
      (date_fmt <- format_date entry ;;
       fmts <- entries_loop rest ;;
       Eff.ret (date_fmt :: fmts))%eff
  end.

(** [dates] after the loop *)
Definition dates_of (entries : list Entry) : list datetime :=
  snd (entries_loop entries []).

(** *** The date range (lines 183-187) *)

(** [min(dates)] and [max(dates)] keep the first of equal elements. *)
Definition py_min (first : datetime) (others : list datetime) : datetime :=
  fold_left (fun m d => if (instant d <? instant m)%Z then d else m)
            others first.

Definition py_max (first : datetime) (others : list datetime) : datetime :=
  fold_left (fun m d => if (instant m <? instant d)%Z then d else m)
            others first.

Definition date_range_str (dates : list datetime) : str :=
  match dates with
  | d :: ds =>
      let start_date := py_min d ds in
      let end_date := py_max d ds in
      lit "from " ++ strftime start_date (lit "%d %b %Y")
        ++ lit " to " ++ strftime end_date (lit "%d %b %Y")
  | [] => lit "No date information"
  end.

End Converter.

(** ** A sample implementation of the library calls

    Integers for JSON numbers, a proleptic Gregorian calendar, three time
    zones and a file system given as the list of the files it holds.  It is
    what the examples below are evaluated with. *)

Module Sample.

Local Open Scope Z_scope.

Definition decimal (n : Z) : str := lit (NilZero.string_of_int (Z.to_int n)).

(** [n] in decimal, with zeros in front up to [width] digits *)
Definition padded (width : nat) (n : Z) : str :=
  let digits := decimal n in
  repeat 48%N (width - List.length digits) ++ digits.

(** *** The calendar *)

Definition is_leap (y : Z) : bool :=
  ((y mod 4 =? 0) && negb (y mod 100 =? 0)) || (y mod 400 =? 0).

Definition days_in_month (y m : Z) : Z :=
  if m =? 2 then (if is_leap y then 29 else 28)
  else if (m =? 4) || (m =? 6) || (m =? 9) || (m =? 11) then 30
  else 31.

(** days from 1970-01-01 to the given day *)
Definition days_from_civil (y m d : Z) : Z :=
  let y' := if m <=? 2 then y - 1 else y in
  let era := y' / 400 in
  let yoe := y' - era * 400 in
  let mp := if 2 <? m then m - 3 else m + 9 in
  let doy := (153 * mp + 2) / 5 + d - 1 in
  let doe := yoe * 365 + yoe / 4 - yoe / 100 + doy in
  era * 146097 + doe - 719468.

(** the year, month and day of a day number *)
Definition civil_from_days (z : Z) : Z * Z * Z :=
  let z := z + 719468 in
  let era := z / 146097 in
  let doe := z - era * 146097 in
  let yoe := (doe - doe / 1460 + doe / 36524 - doe / 146096) / 365 in
  let doy := doe - (365 * yoe + yoe / 4 - yoe / 100) in
  let mp := (5 * doy + 2) / 153 in
  let d := doy - (153 * mp + 2) / 5 + 1 in
  let m := if mp <? 10 then mp + 3 else mp - 9 in
  let y := yoe + era * 400 in
  ((if m <=? 2 then y + 1 else y), m, d).

(** 0 is Sunday *)
Definition weekday (days : Z) : Z := (days + 4) mod 7.

(** *** Time zones *)

Inductive zone : Type := UTC | New_York | Jakarta.

(** the first Sunday on or after the given day *)
Definition sunday_from (y m d : Z) : Z :=
  let days := days_from_civil y m d in
  days + (7 - weekday days) mod 7.

(** seconds east of UTC at the UTC time [t] (in seconds from 1970) *)
Definition utcoffset (z : zone) (t : Z) : Z :=
  match z with
  | UTC => 0
  | Jakarta => 7 * 3600
  | New_York =>
      let '(y, _, _) := civil_from_days ((t - 5 * 3600) / 86400) in
      let dst_start := sunday_from y 3 8 * 86400 + 7 * 3600 in
      let dst_end := sunday_from y 11 1 * 86400 + 6 * 3600 in
      if (dst_start <=? t) && (t <? dst_end) then -4 * 3600 else -5 * 3600
  end.

Definition timezone (name : str) : result zone :=
  if str_eqb name (lit "UTC") then Ok UTC
  else if str_eqb name (lit "America/New_York") then Ok New_York
  else if str_eqb name (lit "Asia/Jakarta") then Ok Jakarta
  else Raise UnknownTimeZoneError.

(** *** Dates with a time *)

(** [tz = None] is a naive datetime, whose seconds are its wall clock. *)
Record sdatetime : Type := {
  seconds : Z;
  tz : option zone
}.

Definition offset (d : sdatetime) : Z :=
  match tz d with
  | Some z => utcoffset z (seconds d)
  | None => 0
  end.

Definition wall (d : sdatetime) : Z := seconds d + offset d.

Definition year (d : sdatetime) : Z :=
  let '(y, _, _) := civil_from_days (wall d / 86400) in y.
Definition month (d : sdatetime) : Z :=
  let '(_, m, _) := civil_from_days (wall d / 86400) in m.
Definition day (d : sdatetime) : Z :=
  let '(_, _, dd) := civil_from_days (wall d / 86400) in dd.
Definition hour (d : sdatetime) : Z := (wall d mod 86400) / 3600.
Definition minute (d : sdatetime) : Z := (wall d mod 3600) / 60.
Definition second (d : sdatetime) : Z := wall d mod 60.

Definition replace_tz (d : sdatetime) (z : zone) : sdatetime :=
  {| seconds := wall d - utcoffset z (wall d); tz := Some z |}.

Definition to_zone (d : sdatetime) (z : zone) : result sdatetime :=
  let d' := {| seconds := seconds d; tz := Some z |} in
  if (1 <=? year d') && (year d' <=? 9999) then Ok d'
  else Raise OverflowError.

Definition digit (c : char) : option Z :=
  if ((48 <=? c) && (c <=? 57))%N then Some (Z.of_N c - 48) else None.

Definition number2 (a b : char) : option Z :=
  match digit a, digit b with
  | Some x, Some y => Some (10 * x + y)
  | _, _ => None
  end.

(** [strptime] for the one format the converter uses, on texts that
    write every field in full with ASCII digits. *)
Definition parse (s fmt : str) : result sdatetime :=
  if negb (str_eqb fmt (lit "%Y-%m-%dT%H:%M:%SZ")) then Raise ValueError
  else
    match s with
    | [y1; y2; y3; y4; 45; m1; m2; 45; d1; d2; 84;
       h1; h2; 58; n1; n2; 58; s1; s2; 90]%N =>
        match number2 y1 y2, number2 y3 y4, number2 m1 m2, number2 d1 d2,
              number2 h1 h2, number2 n1 n2, number2 s1 s2 with
        | Some yh, Some yl, Some m, Some d, Some h, Some n, Some sec =>
            let y := 100 * yh + yl in
            if (1 <=? y) && (1 <=? m) && (m <=? 12) && (1 <=? d)
               && (d <=? days_in_month y m) && (h <=? 23) && (n <=? 59)
               && (sec <=? 59)
            then Ok {| seconds := days_from_civil y m d * 86400
                                  + h * 3600 + n * 60 + sec;
                       tz := None |}
            else Raise ValueError
        | _, _, _, _, _, _, _ => Raise ValueError
        end
    | _ => Raise ValueError
    end.

Definition month_abbr (m : Z) : str :=
  nth (Z.to_nat (m - 1))
      (map lit ["Jan"; "Feb"; "Mar"; "Apr"; "May"; "Jun";
                "Jul"; "Aug"; "Sep"; "Oct"; "Nov"; "Dec"]%string)
      [].

Definition directive (d : sdatetime) (c : char) : str :=
  if (c =? 100)%N then padded 2 (day d)                        (* %d *)
  else if (c =? 98)%N then month_abbr (month d)                (* %b *)
  else if (c =? 89)%N then padded 4 (year d)                   (* %Y *)
  else if (c =? 73)%N then                                     (* %I *)
    padded 2 (if hour d mod 12 =? 0 then 12 else hour d mod 12)
  else if (c =? 77)%N then padded 2 (minute d)                 (* %M *)
  else if (c =? 112)%N then                                    (* %p *)
    (if hour d <? 12 then lit "AM" else lit "PM")
  else [37%N; c].

Fixpoint format (d : sdatetime) (fmt : str) : str :=
  match fmt with
  | [] => []
  | c :: rest =>
      match rest with
      | c' :: rest' =>
          if (c =? 37)%N then directive d c' ++ format d rest'
          else c :: format d rest
      | [] => [c]
      end
  end.

(** *** Paths *)

Definition join_path (a b : str) : str :=
  match b with
  | 47%N :: _ => b
  | _ =>
      match a with
      | [] => b
      | _ :: _ => if (last a 0%N =? 47)%N then a ++ b else a ++ 47%N :: b
      end
  end.

Definition abspath (p : str) : str :=
  match p with
  | 47%N :: _ => p
  | _ => lit "/home/me/journal/" ++ p
  end.

Definition exists_in (files : list str) (p : str) : bool :=
  existsb (str_eqb p) files.

(** The library over a file system that holds [files]. *)
Definition library (files : list str) : Library :=
  {| number := Z;
     number_truthy := fun n => negb (n =? 0);
     number_str := decimal;
     number_1f := fun n => decimal n ++ lit ".0";
     datetime := sdatetime;
     tzinfo := zone;
     strptime := parse;
     replace_tzinfo := replace_tz;
     pytz_UTC := UTC;
     pytz_timezone := timezone;
     astimezone := to_zone;
     strftime := format;
     instant := seconds;
     os_sep := 47%N;
     path_join := join_path;
     path_exists := exists_in files;
     path_abspath := abspath |}.

End Sample.
(** ** Proof devices for the normalizer *)

(** What the loop appends to [out] for the remaining [lines]. *)
Fixpoint emit (prev_blank : bool) (lines : list str) : list str :=
  match lines with
  | [] => []
  | line :: rest =>
      (if list_start_re_match line && negb prev_blank then [[]] else [])
        ++ line :: emit (str_eqb (Py.strip line) []) rest
  end.

(** [prev_blank] after the loop has run over [lines]. *)
Definition blank_after (prev_blank : bool) (lines : list str) : bool :=
  last (map (fun line => str_eqb (Py.strip line) []) lines) prev_blank.

(** The lines [splitlines] reads back from a joined list of lines. *)
Fixpoint strip_last (out : list str) : list str :=
  match out with
  | [] => []
  | p :: ps =>
      match ps with
      | [] => match p with [] => [] | _ :: _ => [p] end
      | _ :: _ => p :: strip_last ps
      end
  end.

(** Does the list of lines end with two empty lines? *)
Definition ends_with_two_empty (lines : list str) : bool :=
  match rev lines with
  | [] :: [] :: _ => true
  | _ => false
  end.

(** Is the last line, or the line before an empty last line, not empty? *)
Definition ends_with_text (lines : list str) : bool :=
  match rev lines with
  | (_ :: _) :: _ => true
  | [] :: (_ :: _) :: _ => true
  | _ => false
  end.

(** A line holds no line boundary. *)
Definition nobreak (l : str) : Prop :=
  Forall (fun c => Py.islinebreak c = false) l.


(** ** Proof devices for the entry pipeline *)

Section ConverterDevices.

Context {L : Library}.

Definition creation_format : str := lit "%Y-%m-%dT%H:%M:%SZ".
Definition display_format : str := lit "%d %b %Y %I:%M %p".

(** The zone the try block looks up for an entry. *)
Definition local_timezone_of (entry : Entry) : result tzinfo :=
  match timeZone entry with
  | Some name => if Py.truthy name then pytz_timezone name else Ok pytz_UTC
  | None => Ok pytz_UTC
  end.

(** The local date the try block reaches, if nothing raises before. *)
Definition converted (entry : Entry) : option datetime :=
  match strptime (creationDate entry) creation_format with
  | Ok date =>
      match local_timezone_of entry with
      | Ok zone =>
          match astimezone (replace_tzinfo date pytz_UTC) zone with
          | Ok local_date => Some local_date
          | Raise _ => None
          end
      | Raise _ => None
      end
  | Raise _ => None
  end.

(** What one entry adds to [dates]. *)
Definition entry_dates (entry : Entry) : list datetime :=
  match converted entry with
  | Some local_date => [local_date]
  | None => []
  end.

(** The instants of the entries whose timestamp parses, as the
    specification words the input of the date range: every timestamp that
    [strptime] accepts, read as UTC. *)
Definition parsed_instants (entries : list Entry) : list datetime :=
  flat_map
    (fun entry =>
       match strptime (creationDate entry) creation_format with
       | Ok date => [replace_tzinfo date pytz_UTC]
       | Raise _ => []
       end)
    entries.

(** The candidate paths of a photo, in the order they are tried. *)
Definition candidates (photos_dir filename : str) : list str :=
  map (fun ext => path_join photos_dir (filename ++ ext)) photo_exts.

End ConverterDevices.

(** ** Sample entries *)

Module Journal.

(** the file system of the examples: one photo, stored as PNG and JPEG *)
Definition files : list str :=
  [lit "photos/0a1b2c.png"; lit "photos/0a1b2c.jpeg"].

#[local] Instance lib : Library := Sample.library files.

Definition no_location : option Location := None.
Definition no_weather : option Weather := None.

Definition cafe : Location :=
  {| latitude := Some 40%Z; longitude := Some (-74)%Z;
     placeName := lit "Cafe"; localityName := [];
     country := lit "United States" |}.

(** a place with a name and a longitude, but no latitude *)
Definition somewhere : Location :=
  {| latitude := None; longitude := Some 106%Z;
     placeName := lit "Home"; localityName := lit "Bandung";
     country := lit "Indonesia" |}.

Definition clear_sky : Weather :=
  {| temperatureCelsius := Some 21%Z;
     conditionsDescription := Some (lit "Clear") |}.

Definition snapshot : MediaRef :=
  {| md5 := Some (lit "0a1b2c"); identifier := Some (lit "F00D") |}.

Definition lost_photo : MediaRef :=
  {| md5 := None; identifier := Some (lit "F00D") |}.

(** the entry of the specification's example *)
Definition autumn : Entry :=
  {| text := lit "# Walk"; creationDate := lit "2023-10-05T14:30:00Z";
     timeZone := Some (lit "America/New_York");
     location := Some cafe; weather := Some clear_sky;
     photos := [snapshot; lost_photo] |}.

(** an entry whose timestamp is no timestamp *)
Definition undated : Entry :=
  {| text := lit "note"; creationDate := lit "not-a-date";
     timeZone := None; location := Some somewhere; weather := no_weather;
     photos := [] |}.

(** a well-formed timestamp, and a zone that pytz does not know *)
Definition on_phobos : Entry :=
  {| text := lit "far"; creationDate := lit "2023-01-01T00:00:00Z";
     timeZone := Some (lit "Mars/Phobos");
     location := no_location; weather := no_weather; photos := [] |}.

(** the same timestamp with no zone *)
Definition new_year : Entry :=
  {| text := lit "far"; creationDate := lit "2023-01-01T00:00:00Z";
     timeZone := None;
     location := no_location; weather := no_weather; photos := [] |}.

Definition summer : Entry :=
  {| text := lit "sun"; creationDate := lit "2024-06-01T00:00:00Z";
     timeZone := None;
     location := no_location; weather := no_weather; photos := [] |}.

End Journal.
(** ** The rest of the loop body: preview, videos, audio, entry card *)

(** [str(n)] for a number that counts *)
Definition str_of_nat (n : nat) : str :=
  lit (NilZero.string_of_uint (Nat.to_uint n)).

Definition is_hash (c : char) : bool := (c =? 35)%N.

Fixpoint skip_hashes (s : str) : str :=
  match s with
  | c :: rest => if is_hash c then skip_hashes rest else s
  | [] => []
  end.

(** The pattern [^#+\s*] of the preview. *)
Definition heading_re : regex :=
  Seq (Plus (Class is_hash)) (Star (Class Py.isspace)).

(** [re.sub(r'^#+\s*', '', preview)]: the pattern can match at the start
    of the text only, and it matches there when the text starts with [#]. *)
Definition strip_heading (preview : str) : str :=
  match preview with
  | c :: rest =>
      if is_hash c then Py.lstrip (skip_hashes rest) else preview
  | [] => []
  end.

(** [text.splitlines()[0] if text else f"Entry {i}"]; [None] stands for
    the IndexError of [[0]] on an empty list. *)
Definition first_line (i : nat) (text : str) : option str :=
  if Py.truthy text then nth_error (Py.splitlines text) 0
  else Some (lit "Entry " ++ str_of_nat i).

Definition preview_of (i : nat) (text : str) : option str :=
  option_map strip_heading (first_line i text).

(** [entry{i}], the anchor of an entry *)
Definition anchor (i : nat) : str := lit "entry" ++ str_of_nat i.

(** what is added to [toc_html] (line 74); the dash is U+2014 *)
Definition toc_line (i : nat) (date_fmt preview : str) : str :=
  html "<li class=~list-group-item d-flex justify-content-between align-items-center~>"
    ++ html "<a href=~#" ++ anchor i ++ html "~>"
    ++ date_fmt ++ [32%N; 8212%N; 32%N] ++ preview
    ++ lit "</a></li>" ++ [LF].

(** [media_block] (lines 166-168) *)
Definition media_block_of (media_html : list str) : str :=
  match media_html with
  | [] => []
  | _ :: _ => html "<div class=~row~>" ++ List.concat media_html ++ lit "</div>"
  end.

(** what is added to [entries_html] (lines 171-182) *)
Definition entry_card (i : nat)
    (date_fmt location_html wx_line text_html media_block : str) : str :=
  [LF] ++ sp 8 ++ html "<div class=~card mb-4~ id=~" ++ anchor i ++ html "~>"
  ++ [LF] ++ sp 12 ++ html "<div class=~card-body~>"
  ++ [LF] ++ sp 16 ++ html "<p class=~text-muted~>" ++ date_fmt ++ lit "</p>"
  ++ [LF] ++ sp 16 ++ location_html
  ++ [LF] ++ sp 16 ++ html "<p class=~text-muted~>" ++ wx_line ++ lit "</p>"
  ++ [LF] ++ sp 16 ++ html "<div class=~card-text~>" ++ text_html
  ++ lit "</div>"
  ++ [LF] ++ sp 16 ++ media_block
  ++ [LF] ++ sp 16
  ++ html "<a href=~#toc~ class=~btn btn-link~>Back to top</a>"
  ++ [LF] ++ sp 12 ++ lit "</div>"
  ++ [LF] ++ sp 8 ++ lit "</div>"
  ++ [LF] ++ sp 8.

Section Rendering.

Context {L : Library}.

(** [markdown.markdown(text, extensions=["extra", "sane_lists"])]; [None]
    when the renderer raises *)
Variable markdown : str -> option str.

(** Does [format(n, '.1f')] raise?  It does, with OverflowError, on an
    integer beyond the range of floats; [number_1f] is its result when it
    does not. *)
Variable overflows : number -> bool.

(** The directories the converter is called with. *)
Record Dirs : Type := {
  photos_dir : str;
  videos_dir : str;
  audio_dir : str
}.

(** An entry with the two lists of media that [Entry] leaves out. *)
Record Item : Type := {
  fields : Entry;
  videos : list MediaRef;
  audios : list MediaRef
}.

(** [mime_map], in the order [.items()] gives *)
Definition mime_map : list (str * str) :=
  [(lit ".mp4", lit "video/mp4");
   (lit ".mov", lit "video/mp4");
   (lit ".webm", lit "video/webm")].

Definition video_div (path mime : str) : str :=
  html "<div class=~col-md-6~><video controls class=~w-100 mb-3~>"
    ++ html "<source src=~" ++ path ++ html "~ type=~" ++ mime ++ html "~>"
    ++ lit "Your browser does not support the video tag.</video></div>".

(** the inner [for ext, mime in mime_map.items()] with its [break] *)
Fixpoint try_mimes (dir filename : str) (items : list (str * str))
  : list str :=
  match items with
  | [] => []
  | (ext, mime) :: rest =>
      let path := path_join dir (filename ++ ext) in
      if path_exists path then [video_div path mime]
      else try_mimes dir filename rest
  end.

(** what one video adds to [media_html] (lines 142-152) *)
Definition video_media (dir : str) (video : MediaRef) : list str :=
  match filename_of video with
  | Some filename =>
      if Py.truthy filename then try_mimes dir filename mime_map else []
  | None => []
  end.

Definition audio_div (path : str) : str :=
  html "<div class=~col-md-6~><audio controls class=~w-100 mb-3~>"
    ++ html "<source src=~" ++ path ++ html "~ type=~audio/mp4~>"
    ++ lit "Your browser does not support the audio element.</audio></div>".

(** what one audio adds to [media_html] (lines 155-163) *)
Definition audio_media (dir : str) (audio : MediaRef) : list str :=
  match filename_of audio with
  | Some filename =>
      if Py.truthy filename then
        let path := path_join dir (filename ++ lit ".m4a") in
        if path_exists path then [audio_div path] else []
      else []
  | None => []
  end.

(** [url], the address a photo is shown from (line 125) *)
Definition photo_url (path : str) : str :=
  lit "file:///" ++ Py.replace os_sep (lit "/") (path_abspath path).

(** [media_html] after the three loops *)
Definition media_html (dirs : Dirs) (item : Item) : list str :=
  photos_media (photos_dir dirs) (fields item)
    ++ flat_map (video_media (videos_dir dirs)) (videos item)
    ++ flat_map (audio_media (audio_dir dirs)) (audios item).

(** The three accumulators of the loop. *)
Record Output : Type := {
  entries_html : str;
  toc_html : str;
  dates : list datetime
}.

(** Does the weather line of the entry raise?  [f"{wx_temp:.1f}"] is
    evaluated whenever [wx_temp is not None] (lines 99-102), outside any
    [try]. *)
Definition wx_raises (entry : Entry) : bool :=
  match wx_temp entry with
  | Some t => overflows t
  | None => false
  end.

(** One turn of the loop (lines 38-182); [None] stands for an exception
    that leaves the loop: one of the renderer, the IndexError of the
    preview, or the OverflowError of the weather line. *)
Definition loop_body (dirs : Dirs) (i : nat) (item : Item) (out : Output)
  : option Output :=
  let entry := fields item in
  let text := Py.strip (text entry) in
  match format_date entry (dates out) with
  | (Raise _, _) => None
  | (Ok date_fmt, dates') =>
      let normalized := normalize_list_boundaries text in
      match markdown normalized with
      | None => None
      | Some text_html =>
          match preview_of i text with
          | None => None
          | Some preview =>
              let toc_html' :=
                toc_html out ++ toc_line i date_fmt preview in
              let location_html := location_html entry in
              if wx_raises entry then None
              else
                let wx_line := wx_line entry in
                let media_block := media_block_of (media_html dirs item) in
                Some {| entries_html :=
                          entries_html out
                            ++ entry_card i date_fmt location_html wx_line
                                 text_html media_block;
                        toc_html := toc_html';
                        dates := dates' |}
          end
      end
  end.

(** [for i, entry in enumerate(data["entries"], start=1)], from [i] on *)
Fixpoint loop_from (dirs : Dirs) (i : nat) (items : list Item)
    (out : Output) : option Output :=
  match items with
  | [] => Some out
  | item :: rest =>
      match loop_body dirs i item out with
      | Some out' => loop_from dirs (S i) rest out'
      | None => None
      end
  end.

Definition run_loop (dirs : Dirs) (items : list Item) : option Output :=
  loop_from dirs 1 items {| entries_html := []; toc_html := []; dates := [] |}.

(** What an entry shows for its date, whatever [dates] holds. *)
Definition date_fmt_of (entry : Entry) : str :=
  match converted entry with
  | Some local_date => strftime local_date display_format
  | None => creationDate entry
  end.

(** The TOC line and the card of the [i]-th entry, on their own. *)
Definition toc_line_of (i : nat) (item : Item) : str :=
  let text := Py.strip (text (fields item)) in
  match preview_of i text with
  | Some preview => toc_line i (date_fmt_of (fields item)) preview
  | None => []
  end.

(** [text_html] for an entry, if the renderer returns *)
Definition text_html_of (item : Item) : option str :=
  markdown (normalize_list_boundaries (Py.strip (text (fields item)))).

Definition card_of (dirs : Dirs) (i : nat) (item : Item) : str :=
  let entry := fields item in
  match text_html_of item with
  | Some text_html =>
      entry_card i (date_fmt_of entry) (location_html entry) (wx_line entry)
        text_html (media_block_of (media_html dirs item))
  | None => []
  end.

(** Does the turn of the loop for this entry raise? *)
Definition turn_raises (item : Item) : bool :=
  match text_html_of item with
  | Some _ => wx_raises (fields item)
  | None => true
  end.

(** The lines and cards of [items], numbered from [i]. *)
Fixpoint toc_from (i : nat) (items : list Item) : str :=
  match items with
  | [] => []
  | item :: rest => toc_line_of i item ++ toc_from (S i) rest
  end.

Fixpoint cards_from (dirs : Dirs) (i : nat) (items : list Item) : str :=
  match items with
  | [] => []
  | item :: rest => card_of dirs i item ++ cards_from dirs (S i) rest
  end.

End Rendering.

(** ** A sample album *)

Module Album.

(** a file system with a video stored twice and one recording *)
Definition files : list str :=
  [lit "videos/c1d2.webm"; lit "videos/c1d2.mov"; lit "audios/77aa.m4a"].

#[local] Instance lib : Library := Sample.library files.

(** a library whose paths are written with backslashes *)
Definition backslash_lib : Library :=
  {| number := Z;
     number_truthy := fun n => negb (n =? 0)%Z;
     number_str := Sample.decimal;
     number_1f := fun n => Sample.decimal n ++ lit ".0";
     datetime := Sample.sdatetime;
     tzinfo := Sample.zone;
     strptime := Sample.parse;
     replace_tzinfo := Sample.replace_tz;
     pytz_UTC := Sample.UTC;
     pytz_timezone := Sample.timezone;
     astimezone := Sample.to_zone;
     strftime := Sample.format;
     instant := Sample.seconds;
     os_sep := 92%N;
     path_join := fun a b => a ++ 92%N :: b;
     path_exists := fun _ => true;
     path_abspath := fun p => lit "C:" ++ 92%N :: p |}.

(** a library over a file system that holds nothing *)
Definition bare : Library := Sample.library [].

Definition dirs : Dirs :=
  {| photos_dir := lit "photos"; videos_dir := lit "videos";
     audio_dir := lit "audios" |}.

Definition clip : MediaRef :=
  {| md5 := Some (lit "c1d2"); identifier := None |}.

Definition memo : MediaRef :=
  {| md5 := Some []; identifier := Some (lit "77aa") |}.

(** an entry with a clip and a memo, over any library *)
Definition trip_on (l : Library) : @Item l :=
  {| fields :=
       {| text := lit "## Trip" ++ LF :: lit "- sea";
          creationDate := lit "2024-06-01T00:00:00Z";
          timeZone := Some (lit "Asia/Jakarta");
          location := None; weather := None; photos := [] |};
     videos := [clip]; audios := [memo] |}.

Definition trip : Item := trip_on lib.

Definition blank : Item :=
  {| fields :=
       {| text := [32%N; LF]; creationDate := lit "soon";
          timeZone := None; location := None; weather := None;
          photos := [] |};
     videos := []; audios := [] |}.

(** a stand-in for the Markdown renderer *)
Definition paragraph (s : str) : option str :=
  Some (lit "<p>" ++ s ++ lit "</p>").

(** integers that [float] cannot hold: from 2^1024 - 2^970 on *)
Definition too_large (n : Z) : bool :=
  (2 ^ 1024 - 2 ^ 970 <=? Z.abs n)%Z.

(** an entry whose temperature is an integer of 401 digits *)
Definition furnace : Item :=
  {| fields :=
       {| text := lit "hot"; creationDate := lit "2024-06-02T00:00:00Z";
          timeZone := None; location := None;
          weather := Some {| temperatureCelsius := Some (10 ^ 400)%Z;
                             conditionsDescription := None |};
          photos := [] |};
     videos := []; audios := [] |}.

End Album.

(** ** Facts about text *)

Lemma str_eqb_nil (s : str) :
  str_eqb s [] = match s with [] => true | _ :: _ => false end.
Proof.
  unfold str_eqb. destruct (list_eq_dec N.eq_dec s []) as [->|Hne].
  - reflexivity.
  - destruct s; [contradiction | reflexivity].
Qed.

Lemma str_eqb_eq (a b : str) : str_eqb a b = true <-> a = b.
Proof.
  unfold str_eqb. destruct (list_eq_dec N.eq_dec a b); split; congruence.
Qed.

Lemma lstrip_nil_iff (s : str) :
  Py.lstrip s = [] <-> forallb Py.isspace s = true.
Proof.
  induction s as [|c s IH]; simpl.
  - tauto.
  - destruct (Py.isspace c); simpl; [exact IH | split; discriminate].
Qed.

Lemma forallb_rev (A : Type) (f : A -> bool) (l : list A) :
  forallb f (rev l) = forallb f l.
Proof.
  induction l as [|a l IH]; simpl; [reflexivity|].
  rewrite forallb_app, IH. simpl. rewrite andb_true_r. apply andb_comm.
Qed.

Lemma rstrip_nil_iff (s : str) :
  Py.rstrip s = [] <-> forallb Py.isspace s = true.
Proof.
  unfold Py.rstrip. rewrite <- (forallb_rev Py.isspace s), <- lstrip_nil_iff.
  split; intro H.
  - apply (f_equal (@rev char)) in H. rewrite rev_involutive in H. exact H.
  - rewrite H. reflexivity.
Qed.

Lemma lstrip_head (s : str) (c : char) (rest : str) :
  Py.lstrip s = c :: rest -> Py.isspace c = false.
Proof.
  induction s as [|a s IH]; simpl; [discriminate|].
  destruct (Py.isspace a) eqn:Ha; [exact IH|].
  intros [= <- _]. exact Ha.
Qed.

(** A line is blank exactly when all its characters are white space. *)
Lemma blank_iff (line : str) :
  str_eqb (Py.strip line) [] = true <-> forallb Py.isspace line = true.
Proof.
  rewrite str_eqb_eq. unfold Py.strip. rewrite rstrip_nil_iff.
  split; intro H.
  - induction line as [|c line IH]; simpl in *; [reflexivity|].
    destruct (Py.isspace c) eqn:Hc; simpl in *; [auto|].
    rewrite Hc in H. discriminate H.
  - induction line as [|c line IH]; simpl in *; [reflexivity|].
    destruct (Py.isspace c) eqn:Hc; simpl in *; [auto | discriminate H].
Qed.

Lemma bullet_not_space (c : char) : is_bullet c = true -> Py.isspace c = false.
Proof.
  unfold is_bullet. rewrite !orb_true_iff, !N.eqb_eq.
  intros [[->| ->]| ->]; reflexivity.
Qed.

Lemma digit_not_space (c : char) : is_digit c = true -> Py.isspace c = false.
Proof.
  unfold is_digit, Py.isspace. rewrite andb_true_iff, !N.leb_le. intros [H1 H2].
  repeat match goal with
         | |- context [N.leb ?a ?b] => destruct (N.leb_spec a b); try lia
         | |- context [N.eqb ?a ?b] => destruct (N.eqb_spec a b); try lia
         end;
  try reflexivity.
Qed.

(** A list item line is never blank. *)
Lemma list_item_not_blank (line : str) :
  list_start_re_match line = true -> str_eqb (Py.strip line) [] = false.
Proof.
  intro H. destruct (str_eqb (Py.strip line) []) eqn:E; [|reflexivity].
  apply blank_iff in E. apply lstrip_nil_iff in E.
  unfold list_start_re_match in H. rewrite E in H. discriminate.
Qed.

Lemma empty_not_list_item : list_start_re_match [] = false.
Proof. reflexivity. Qed.

Lemma empty_blank : str_eqb (Py.strip []) [] = true.
Proof. reflexivity. Qed.

(** ** The scan of [list_start_re_match] against the pattern *)

Lemma star_class (p : char -> bool) (s : str) :
  matches (Star (Class p)) s <-> forallb p s = true.
Proof.
  split.
  - intro H. remember (Star (Class p)) as r eqn:Er.
    induction H as [| | | | |r0 u v Hu _ Hv IHv|]; try discriminate Er.
    + reflexivity.
    + injection Er as ->. inversion Hu; subst. simpl.
      rewrite (IHv eq_refl). rewrite H0. reflexivity.
  - induction s as [|c s IH]; intro H; [constructor|].
    simpl in H. apply andb_true_iff in H. destruct H as [Hc Hs].
    apply (MStarS (u := [c])); [constructor; exact Hc | exact (IH Hs)].
Qed.

Lemma plus_class (p : char -> bool) (s : str) :
  matches (Plus (Class p)) s
  <-> exists c s', s = c :: s' /\ p c = true /\ forallb p s' = true.
Proof.
  split.
  - intro H. inversion H as [| | | | | |r u v Hu Hv]; subst.
    inversion Hu as [q c Hc| | | | | |]; subst. apply star_class in Hv.
    exists c, v. auto.
  - intros (c & s' & -> & Hc & Hs).
    apply (MPlus (u := [c])); [constructor; exact Hc|].
    apply star_class. exact Hs.
Qed.

Lemma lstrip_app (ws x : str) :
  forallb Py.isspace ws = true -> Py.lstrip (ws ++ x) = Py.lstrip x.
Proof.
  induction ws as [|c ws IH]; intro H; [reflexivity|].
  simpl in H. apply andb_true_iff in H. destruct H as [Hc Hs].
  simpl. rewrite Hc. exact (IH Hs).
Qed.

Lemma lstrip_split (line : str) :
  exists ws, line = ws ++ Py.lstrip line /\ forallb Py.isspace ws = true.
Proof.
  induction line as [|c line (ws & E & H)]; [exists []; split; reflexivity|].
  simpl. destruct (Py.isspace c) eqn:Hc.
  - exists (c :: ws). split; [simpl; congruence | simpl; rewrite Hc; exact H].
  - exists []. split; reflexivity.
Qed.

Lemma skip_digits_app (ds x : str) :
  forallb is_digit ds = true -> skip_digits (ds ++ x) = skip_digits x.
Proof.
  induction ds as [|c ds IH]; intro H; [reflexivity|].
  simpl in H. apply andb_true_iff in H. destruct H as [Hc Hs].
  simpl. rewrite Hc. exact (IH Hs).
Qed.

Lemma skip_digits_split (s : str) :
  exists ds, s = ds ++ skip_digits s /\ forallb is_digit ds = true.
Proof.
  induction s as [|c s (ds & E & H)]; [exists []; split; reflexivity|].
  simpl. destruct (is_digit c) eqn:Hc.
  - exists (c :: ds). split; [simpl; congruence | simpl; rewrite Hc; exact H].
  - exists []. split; reflexivity.
Qed.

Lemma closer_not_digit (c : char) : is_closer c = true -> is_digit c = false.
Proof.
  unfold is_closer. rewrite orb_true_iff, !N.eqb_eq. intros [->| ->]; reflexivity.
Qed.

Lemma digit_not_bullet (c : char) : is_digit c = true -> is_bullet c = false.
Proof.
  unfold is_digit, is_bullet. rewrite andb_true_iff, !N.leb_le. intros [H1 H2].
  repeat match goal with
         | |- context [N.eqb ?a ?b] => destruct (N.eqb_spec a b); try lia
         end;
  try reflexivity.
Qed.

(** X18: [list_start_re_match] answers whether a prefix of the line matches
    the pattern [^\s*(?:[-+*]|[0-9]+[.)])\s+]: a line is a list item exactly
    when it starts with white space or none, then [-], [+] or [*], or
    digits and [.] or [)], then white space. *)
Lemma list_start_re_match_spec (line : str) :
  list_start_re_match line = true
  <-> exists prefix rest, line = prefix ++ rest /\ matches list_start_re prefix.
Proof.
  unfold list_start_re_match, list_start_re. split.
  - intro H. destruct (lstrip_split line) as (ws & E & Hws).
    destruct (Py.lstrip line) as [|c rest]; [discriminate H|].
    destruct (is_bullet c) eqn:Hb.
    + destruct rest as [|s rest]; [discriminate H|]. simpl in H.
      exists (ws ++ [c] ++ [s]), rest. split.
      * rewrite E, <- !app_assoc. reflexivity.
      * apply MSeq; [apply star_class, Hws|].
        apply MSeq; [apply MAltL; constructor; exact Hb|].
        apply plus_class. exists s, []. auto.
    + destruct (is_digit c) eqn:Hd; [|discriminate H].
      destruct (skip_digits_split rest) as (ds & Er & Hds).
      destruct (skip_digits rest) as [|d rest']; [discriminate H|].
      apply andb_true_iff in H. destruct H as [Hcl Hsp].
      destruct rest' as [|s rest'']; [discriminate Hsp|]. simpl in Hsp.
      exists (ws ++ ((c :: ds) ++ [d]) ++ [s]), rest''. split.
      * rewrite E, Er. repeat rewrite <- app_assoc. simpl.
        repeat rewrite <- app_assoc. reflexivity.
      * apply MSeq; [apply star_class, Hws|].
        apply MSeq.
        -- apply MAltR. apply MSeq; [|constructor; exact Hcl].
           apply plus_class. exists c, ds. auto.
        -- apply plus_class. exists s, []. auto.
  - intros (prefix & rest & -> & H).
    inversion H as [|r1 r2 ws v Hws Hv| | | | |]; subst. clear H.
    apply star_class in Hws.
    inversion Hv as [|r1 r2 mk sps Hmk Hsps| | | | |]; subst. clear Hv.
    apply plus_class in Hsps. destruct Hsps as (s & sps' & -> & Hs & _).
    rewrite <- !app_assoc, (@lstrip_app ws _ Hws).
    inversion Hmk as [| |r1 r2 u Hb|r1 r2 u Hd| | |]; subst; clear Hmk.
    + inversion Hb; subst. simpl.
      rewrite (bullet_not_space _ H0), H0. exact Hs.
    + inversion Hd as [|r1 r2 ds cl Hds Hcl| | | | |]; subst. clear Hd.
      apply plus_class in Hds. destruct Hds as (c & ds' & -> & Hc & Hds').
      inversion Hcl; subst. simpl. rewrite <- !app_assoc. simpl.
      rewrite (digit_not_space _ Hc), (digit_not_bullet _ Hc), Hc.
      rewrite (@skip_digits_app ds' _ Hds'). simpl.
      rewrite (closer_not_digit _ H0), H0. exact Hs.
Qed.

(** ** Facts about [splitlines] and [join] *)

Lemma splitlines_line (l s : str) :
  nobreak l -> Py.splitlines (l ++ LF :: s) = l :: Py.splitlines s.
Proof.
  induction 1 as [|c l Hc _ IH]; simpl.
  - destruct s; reflexivity.
  - rewrite Hc, IH. reflexivity.
Qed.

Lemma splitlines_last (l : str) :
  nobreak l ->
  Py.splitlines l = match l with [] => [] | _ :: _ => [l] end.
Proof.
  induction 1 as [|c l Hc _ IH]; simpl; [reflexivity|].
  rewrite Hc, IH. destruct l; reflexivity.
Qed.

(** Reading back joined lines drops one empty last line, and nothing else. *)
Lemma splitlines_join (out : list str) :
  Forall nobreak out -> Py.splitlines (Py.join [LF] out) = strip_last out.
Proof.
  induction 1 as [|p ps Hp Hps IH]; [reflexivity|].
  destruct ps as [|q ps].
  - simpl. rewrite (splitlines_last Hp). reflexivity.
  - change (Py.join [LF] (p :: q :: ps)) with (p ++ LF :: Py.join [LF] (q :: ps)).
    rewrite (splitlines_line _ Hp), IH. reflexivity.
Qed.

Lemma splitlines_nobreak_le (n : nat) :
  forall s : str, List.length s <= n -> Forall nobreak (Py.splitlines s).
Proof.
  induction n as [|n IH]; intros s Hs.
  - destruct s; [constructor | simpl in Hs; lia].
  - destruct s as [|c rest]; [constructor|]. simpl in Hs. simpl.
    destruct (Py.islinebreak c) eqn:Hc.
    + constructor; [constructor|].
      destruct rest as [|c' rest']; [constructor|].
      simpl in Hs. destruct ((c =? CR)%N && (c' =? LF)%N); apply IH; simpl; lia.
    + assert (Hr : Forall nobreak (Py.splitlines rest)) by (apply IH; lia).
      destruct (Py.splitlines rest) as [|l ls]; repeat constructor; try assumption.
      * inversion Hr; subst; assumption.
      * inversion Hr; subst; assumption.
Qed.

(** No line returned by [splitlines] holds a line boundary. *)
Lemma splitlines_nobreak (s : str) : Forall nobreak (Py.splitlines s).
Proof. exact (@splitlines_nobreak_le (List.length s) s (le_n _)). Qed.

Lemma strip_last_snoc (out : list str) : strip_last (out ++ [[]]) = out.
Proof.
  induction out as [|p ps IH]; [reflexivity|].
  destruct ps as [|q ps]; [reflexivity|].
  change (strip_last ((p :: q :: ps) ++ [[]]))
    with (p :: strip_last ((q :: ps) ++ [[]])).
  rewrite IH. reflexivity.
Qed.

Lemma join_snoc (out : list str) (l : str) :
  out <> [] -> Py.join [LF] (out ++ [l]) = Py.join [LF] out ++ LF :: l.
Proof.
  induction out as [|p ps IH]; [congruence|]. intros _.
  destruct ps as [|q ps]; [reflexivity|].
  change (Py.join [LF] ((p :: q :: ps) ++ [l]))
    with (p ++ LF :: Py.join [LF] ((q :: ps) ++ [l])).
  rewrite IH by discriminate.
  change (Py.join [LF] (p :: q :: ps)) with (p ++ LF :: Py.join [LF] (q :: ps)).
  rewrite <- app_assoc. reflexivity.
Qed.

(** ** Facts about the loop *)

Lemma last_cons_default (A : Type) (a d : A) (l : list A) :
  last (a :: l) d = last l a.
Proof.
  revert a d. induction l as [|x l IH]; intros a d; [reflexivity|].
  change (last (a :: x :: l) d) with (last (x :: l) d).
  rewrite IH. symmetry. apply IH.
Qed.

Lemma blank_after_cons (b : bool) (line : str) (rest : list str) :
  blank_after b (line :: rest) = blank_after (str_eqb (Py.strip line) []) rest.
Proof. unfold blank_after. cbn [map]. apply last_cons_default. Qed.

Lemma loop_emit (lines : list str) :
  forall out prev_blank,
    fold_left step lines (out, prev_blank)
    = (out ++ emit prev_blank lines, blank_after prev_blank lines).
Proof.
  induction lines as [|line rest IH]; intros out prev_blank.
  - simpl. rewrite app_nil_r. reflexivity.
  - cbn [fold_left step]. rewrite IH. f_equal.
    + cbn [emit].
      destruct (list_start_re_match line && negb prev_blank);
        rewrite <- ?app_assoc; reflexivity.
    + symmetry. apply blank_after_cons.
Qed.

Lemma normalized_lines_emit (x : str) :
  normalized_lines x = ensure_trailing (emit true (Py.splitlines x)).
Proof. unfold normalized_lines. rewrite loop_emit. reflexivity. Qed.

Lemma blank_after_snoc (b : bool) (lines : list str) (l : str) :
  blank_after b (lines ++ [l]) = str_eqb (Py.strip l) [].
Proof. unfold blank_after. rewrite map_app. simpl. apply last_last. Qed.

Lemma emit_app (l1 l2 : list str) :
  forall b, emit b (l1 ++ l2) = emit b l1 ++ emit (blank_after b l1) l2.
Proof.
  induction l1 as [|line rest IH]; intro b; [reflexivity|].
  cbn [app emit]. rewrite IH. rewrite <- app_assoc. cbn [app].
  rewrite blank_after_cons. reflexivity.
Qed.

Lemma emit_idem (lines : list str) :
  forall b, emit b (emit b lines) = emit b lines.
Proof.
  induction lines as [|line rest IH]; intro b; [reflexivity|].
  cbn [emit]. destruct (list_start_re_match line && negb b) eqn:E.
  - cbn [app emit]. rewrite empty_not_list_item, empty_blank.
    cbn [andb app negb]. rewrite andb_false_r. cbn [app]. rewrite IH.
    reflexivity.
  - cbn [app emit]. rewrite E. cbn [app]. rewrite IH. reflexivity.
Qed.

Lemma emit_nobreak (lines : list str) :
  Forall nobreak lines -> forall b, Forall nobreak (emit b lines).
Proof.
  induction 1 as [|line rest Hl _ IH]; intro b; [constructor|].
  cbn [emit]. apply Forall_app. split.
  - destruct (_ && _); repeat constructor.
  - constructor; [assumption | apply IH].
Qed.

Lemma ensure_trailing_nobreak (out : list str) :
  Forall nobreak out -> Forall nobreak (ensure_trailing out).
Proof.
  intro H. unfold ensure_trailing. destruct out as [|p ps]; [assumption|].
  destruct (negb _); [|assumption].
  apply Forall_app. split; [assumption | repeat constructor].
Qed.

Lemma ensure_trailing_snoc (out : list str) (l : str) :
  ensure_trailing (out ++ [l])
  = match l with [] => out ++ [l] | _ :: _ => (out ++ [l]) ++ [[]] end.
Proof.
  unfold ensure_trailing. destruct (out ++ [l]) eqn:E.
  - destruct out; discriminate.
  - rewrite <- E. rewrite last_last, str_eqb_nil. destruct l; reflexivity.
Qed.

Lemma emit_snoc (lines : list str) (l : str) (b : bool) :
  emit b (lines ++ [l])
  = (emit b lines
       ++ if list_start_re_match l && negb (blank_after b lines)
          then [[]] else [])
      ++ [l].
Proof.
  rewrite emit_app. cbn [emit]. rewrite <- !app_assoc. reflexivity.
Qed.

(** ** Stripped text, which is what the converter normalizes *)

Lemma linebreak_is_space (c : char) :
  Py.islinebreak c = true -> Py.isspace c = true.
Proof.
  unfold Py.islinebreak, Py.isspace.
  rewrite !orb_true_iff, !andb_true_iff, !N.leb_le, !N.eqb_eq. lia.
Qed.

Lemma not_space_not_linebreak (c : char) :
  Py.isspace c = false -> Py.islinebreak c = false.
Proof.
  intro H. destruct (Py.islinebreak c) eqn:E; [|reflexivity].
  apply linebreak_is_space in E. congruence.
Qed.

Lemma splitlines_snoc_le (n : nat) :
  forall (s : str) (c : char),
    List.length s <= n -> Py.islinebreak c = false ->
    exists ls l, Py.splitlines (s ++ [c]) = ls ++ [l ++ [c]].
Proof.
  induction n as [|n IH]; intros s c Hn Hc.
  - destruct s; [|simpl in Hn; lia]. exists [], []. simpl. rewrite Hc.
    reflexivity.
  - destruct s as [|a rest].
    + exists [], []. simpl. rewrite Hc. reflexivity.
    + simpl in Hn. cbn [app Py.splitlines].
      destruct (Py.islinebreak a) eqn:Ha.
      * destruct rest as [|b rest0].
        -- cbn [app]. assert (Hlf : (c =? LF)%N = false).
           { destruct (N.eqb_spec c LF) as [->|]; [discriminate Hc|reflexivity]. }
           rewrite Hlf, andb_false_r. exists [[]], []. simpl. rewrite Hc.
           reflexivity.
        -- cbn [app]. simpl in Hn.
           destruct ((a =? CR)%N && (b =? LF)%N).
           ++ destruct (IH rest0 c) as (ls & l & E); [lia | exact Hc|].
              exists ([] :: ls), l. rewrite E. reflexivity.
           ++ destruct (IH (b :: rest0) c) as (ls & l & E);
                [simpl; lia | exact Hc|].
              exists ([] :: ls), l. cbn [app] in E. rewrite E. reflexivity.
      * destruct (IH rest c) as (ls & l & E); [lia | exact Hc|].
        rewrite E. destruct ls as [|x ls].
        -- exists [], (a :: l). reflexivity.
        -- exists ((a :: x) :: ls), l. reflexivity.
Qed.

(** A text that ends with a character which is no line boundary has a last
    line, and that line ends with this character. *)
Lemma splitlines_snoc (s : str) (c : char) :
  Py.islinebreak c = false ->
  exists ls l, Py.splitlines (s ++ [c]) = ls ++ [l ++ [c]].
Proof. intro Hc. exact (@splitlines_snoc_le (List.length s) s c (le_n _) Hc). Qed.

(** A stripped text that is not empty ends with a character which is no
    white space. *)
Lemma strip_last_char (t : str) :
  Py.strip t = [] \/ exists s c, Py.strip t = s ++ [c] /\ Py.isspace c = false.
Proof.
  unfold Py.strip, Py.rstrip.
  destruct (Py.lstrip (rev (Py.lstrip t))) as [|c r] eqn:E; [left; reflexivity|].
  right. exists (rev r), c. split; [reflexivity|].
  exact (lstrip_head _ E).
Qed.

Lemma stripped_lines (t : str) :
  Py.strip t = [] \/
  exists ls l c, Py.splitlines (Py.strip t) = ls ++ [l ++ [c]].
Proof.
  destruct (strip_last_char t) as [H|(s & c & E & Hc)]; [left; exact H|].
  right. rewrite E.
  destruct (@splitlines_snoc s c (not_space_not_linebreak _ Hc))
    as (ls & l & El).
  exists ls, l, c. exact El.
Qed.

(** ** The normalizer: idempotence, trailing line, inserted blank lines *)

Lemma emit_true_fixed (P : list str) :
  emit true (P ++ [[]]) = P ++ [[]] -> emit true P = P.
Proof.
  rewrite emit_snoc, empty_not_list_item. cbn [andb]. rewrite app_nil_r.
  intro H. apply app_inj_tail in H. tauto.
Qed.

(** C1, as the code has it: normalizing twice gives what normalizing once
    gives, for every text whose list of lines does not end with two empty
    lines; every stripped text is one, and the converter normalizes
    stripped text only.  (Each pass drops one empty last line, so the
    property fails exactly on the texts left out here.) *)
Theorem normalize_idempotent (x : str) :
  (ends_with_two_empty (Py.splitlines x) = false ->
   normalize_list_boundaries (normalize_list_boundaries x)
   = normalize_list_boundaries x)
  /\ normalize_list_boundaries (normalize_list_boundaries (Py.strip x))
     = normalize_list_boundaries (Py.strip x).
Proof.
  assert (twice : forall y,
             ends_with_two_empty (Py.splitlines y) = false ->
             normalize_list_boundaries (normalize_list_boundaries y)
             = normalize_list_boundaries y).
  { intros y Hy. unfold normalize_list_boundaries.
    rewrite !normalized_lines_emit.
    assert (HL : Forall nobreak (Py.splitlines y)) by apply splitlines_nobreak.
    rewrite splitlines_join
      by (apply ensure_trailing_nobreak, emit_nobreak, HL).
    assert (Hid : emit true (emit true (Py.splitlines y))
                  = emit true (Py.splitlines y)) by apply emit_idem.
    clear HL. revert Hy Hid.
    destruct (Py.splitlines y) as [|l L0 _] using rev_ind; [reflexivity|].
    intros Hy Hid.
    rewrite emit_snoc in *.
    set (P := emit true L0
                ++ (if list_start_re_match l && negb (blank_after true L0)
                    then [[]] else [])) in *.
    rewrite ensure_trailing_snoc. destruct l as [|c l].
    - (* the last line is empty: it is the one read back as the terminator *)
      rewrite strip_last_snoc, (emit_true_fixed _ Hid).
      subst P. rewrite empty_not_list_item in *. cbn [andb] in *.
      rewrite app_nil_r in *. clear Hid. revert Hy.
      destruct L0 as [|l' L1 _] using rev_ind; [reflexivity|].
      intro Hy.
      rewrite emit_snoc, ensure_trailing_snoc.
      destruct l' as [|c' l'']; [|reflexivity].
      unfold ends_with_two_empty in Hy. rewrite !rev_app_distr in Hy.
      discriminate Hy.
    - rewrite strip_last_snoc, Hid, ensure_trailing_snoc. reflexivity. }
  split; [apply twice|]. apply twice.
  destruct (stripped_lines x) as [->|(ls & l & c & ->)]; [reflexivity|].
  unfold ends_with_two_empty. rewrite rev_app_distr.
  destruct l; reflexivity.
Qed.

Lemma normalize_idempotent_witness :
  normalize_list_boundaries
    (normalize_list_boundaries (lit "intro" ++ LF :: lit "- a" ++ [LF; LF]))
  = normalize_list_boundaries (lit "intro" ++ LF :: lit "- a" ++ [LF; LF]).
Proof.
  apply (proj1 (normalize_idempotent
                  (lit "intro" ++ LF :: lit "- a" ++ [LF; LF]))).
  reflexivity.
Defined.

(** C1 as stated fails: on a text that ends with three line feeds the second
    pass returns a shorter text than the first. *)
Lemma normalize_not_idempotent :
  normalize_list_boundaries
    (normalize_list_boundaries (lit "a" ++ [LF; LF; LF]))
  <> normalize_list_boundaries (lit "a" ++ [LF; LF; LF]).
Proof. vm_compute. discriminate. Qed.

Lemma join_ends (P : list str) (l : str) :
  l <> [] -> nobreak l ->
  exists body c,
    Py.join [LF] ((P ++ [l]) ++ [[]]) = body ++ [c; LF]
    /\ Py.islinebreak c = false.
Proof.
  intros Hl Hnb.
  destruct (@exists_last _ l Hl) as (l1 & c & ->).
  assert (Hc : Py.islinebreak c = false).
  { apply Forall_app in Hnb. destruct Hnb as [_ Hc].
    inversion Hc; subst; assumption. }
  rewrite join_snoc by (destruct P; discriminate).
  destruct P as [|p P'].
  - exists l1, c. split; [|exact Hc].
    cbn [app Py.join]. rewrite <- app_assoc. reflexivity.
  - exists (Py.join [LF] (p :: P') ++ LF :: l1), c. split; [|exact Hc].
    rewrite (join_snoc (out := p :: P')) by discriminate.
    rewrite <- !app_assoc. cbn [app]. rewrite <- !app_assoc. reflexivity.
Qed.

(** C4, as the code has it: when the last line of the input, or the line
    before an empty last line, is not empty, the result ends with one line
    feed that follows a character which is no line boundary; so does the
    result for every stripped text that is not empty, which is what the
    converter passes; and the empty string is returned as the empty
    string. *)
Theorem normalize_trailing_line (x : str) :
  (ends_with_text (Py.splitlines x) = true ->
   exists body c,
     normalize_list_boundaries x = body ++ [c; LF]
     /\ Py.islinebreak c = false)
  /\ (Py.truthy (Py.strip x) = true ->
      exists body c,
        normalize_list_boundaries (Py.strip x) = body ++ [c; LF]
        /\ Py.islinebreak c = false)
  /\ normalize_list_boundaries [] = [].
Proof.
  assert (ends : forall y,
             ends_with_text (Py.splitlines y) = true ->
             exists body c,
               normalize_list_boundaries y = body ++ [c; LF]
               /\ Py.islinebreak c = false).
  { intros y Hy. unfold normalize_list_boundaries.
    rewrite normalized_lines_emit.
    assert (HL : Forall nobreak (Py.splitlines y)) by apply splitlines_nobreak.
    revert Hy HL. unfold ends_with_text.
    destruct (Py.splitlines y) as [|l L0 _] using rev_ind;
      [intro H; discriminate H|].
    rewrite rev_app_distr. cbn [rev app].
    intros Hy HL. apply Forall_app in HL. destruct HL as [HL0 HL].
    inversion HL as [|? ? Hnb _]; subst. clear HL.
    rewrite emit_snoc, ensure_trailing_snoc.
    destruct l as [|c0 l0].
    - (* an empty last line after a line that is not empty *)
      rewrite empty_not_list_item. cbn [andb]. rewrite app_nil_r.
      revert Hy HL0.
      destruct L0 as [|l' L1 _] using rev_ind; [intro H; discriminate H|].
      rewrite rev_app_distr. cbn [rev app]. intros Hy HL1.
      apply Forall_app in HL1. destruct HL1 as [_ HL1].
      inversion HL1 as [|? ? Hnb' _]; subst.
      rewrite emit_snoc.
      apply join_ends; [destruct l'; [discriminate Hy | discriminate] | exact Hnb'].
    - apply join_ends; [discriminate | exact Hnb]. }
  split; [apply ends|]. split; [|reflexivity].
  intro Ht. apply ends.
  destruct (stripped_lines x) as [E|(ls & l & c & ->)];
    [rewrite E in Ht; discriminate Ht|].
  unfold ends_with_text. rewrite rev_app_distr.
  destruct l; reflexivity.
Qed.

Lemma normalize_trailing_line_witness :
  exists body c,
    normalize_list_boundaries (lit "intro" ++ LF :: lit "- a")
    = body ++ [c; LF]
    /\ Py.islinebreak c = false.
Proof.
  apply (proj1 (normalize_trailing_line (lit "intro" ++ LF :: lit "- a"))).
  reflexivity.
Defined.

(** C4 as stated fails: the empty string is returned as it is, not as a
    blank line, and its result ends with no line feed at all. *)
Lemma normalize_empty_no_blank_line :
  normalize_list_boundaries [] = []
  /\ normalize_list_boundaries [] <> [LF]
  /\ ~ (exists body, normalize_list_boundaries [] = body ++ [LF]).
Proof.
  split; [reflexivity|]. split; [discriminate|].
  intros [body H]. change (normalize_list_boundaries []) with (@nil char) in H.
  destruct body; discriminate H.
Qed.

Lemma normalized_lines_split (x : str) (pre post : list str) (p l : str) :
  Py.splitlines x = pre ++ p :: l :: post ->
  list_start_re_match l = true ->
  str_eqb (Py.strip p) [] = false ->
  normalized_lines x
  = ensure_trailing (emit true (pre ++ [p]) ++ [] :: l :: emit false post).
Proof.
  intros Hx Hl Hp. rewrite normalized_lines_emit, Hx.
  change (pre ++ p :: l :: post) with (pre ++ [p] ++ l :: post).
  rewrite app_assoc, emit_app, blank_after_snoc, Hp. cbn [emit].
  rewrite Hl, (list_item_not_blank _ Hl). reflexivity.
Qed.

(** C5: a list item line that comes right after a line which is neither
    blank nor a list item is emitted after exactly one inserted empty line:
    the output lines are those emitted for the lines before, then that
    line, one empty line, the list item, and what is emitted for the rest. *)
Theorem blank_line_before_list_after_text
    (x : str) (pre post : list str) (p l : str) :
  Py.splitlines x = pre ++ p :: l :: post ->
  list_start_re_match l = true ->
  str_eqb (Py.strip p) [] = false ->
  list_start_re_match p = false ->
  normalize_list_boundaries x
  = Py.join [LF]
      (ensure_trailing (emit true pre ++ p :: [] :: l :: emit false post)).
Proof.
  intros Hx Hl Hp Hnl. unfold normalize_list_boundaries.
  rewrite (@normalized_lines_split _ _ _ _ _ Hx Hl Hp).
  rewrite emit_snoc, Hnl. cbn [andb]. rewrite app_nil_r, <- app_assoc.
  reflexivity.
Qed.

Lemma blank_line_before_list_after_text_witness :
  normalize_list_boundaries
    (lit "Title" ++ LF :: lit "Shopping:" ++ LF :: lit "1. eggs"
       ++ LF :: lit "done")
  = Py.join [LF]
      (ensure_trailing
         (emit true [lit "Title"]
            ++ lit "Shopping:" :: [] :: lit "1. eggs"
            :: emit false [lit "done"])).
Proof.
  apply blank_line_before_list_after_text; reflexivity.
Defined.

(** C10: a list item line that comes right after any line which is not
    blank, a list item included, is emitted after an inserted empty line;
    so two list items on consecutive lines come out with an empty line
    between them. *)
Theorem blank_line_before_list_after_nonblank
    (x : str) (pre post : list str) (p l : str) :
  Py.splitlines x = pre ++ p :: l :: post ->
  list_start_re_match l = true ->
  str_eqb (Py.strip p) [] = false ->
  exists head,
    emit true (pre ++ [p]) = head ++ [p]
    /\ normalize_list_boundaries x
       = Py.join [LF]
           (ensure_trailing (head ++ p :: [] :: l :: emit false post)).
Proof.
  intros Hx Hl Hp.
  exists (emit true pre
            ++ if list_start_re_match p && negb (blank_after true pre)
               then [[]] else []).
  split; [apply emit_snoc|].
  unfold normalize_list_boundaries.
  rewrite (@normalized_lines_split _ _ _ _ _ Hx Hl Hp), emit_snoc.
  rewrite <- (app_assoc _ [p]). reflexivity.
Qed.

Lemma blank_line_before_list_after_nonblank_witness :
  exists head,
    emit true ([] ++ [lit "- a"]) = head ++ [lit "- a"]
    /\ normalize_list_boundaries (lit "- a" ++ LF :: lit "- b")
       = Py.join [LF]
           (ensure_trailing
              (head ++ lit "- a" :: [] :: lit "- b" :: emit false [])).
Proof.
  apply (@blank_line_before_list_after_nonblank
           (lit "- a" ++ LF :: lit "- b") [] [] (lit "- a") (lit "- b"));
    reflexivity.
Defined.

(** Two list items on consecutive lines, in full. *)
Example consecutive_items_separated :
  normalize_list_boundaries (lit "- a" ++ LF :: lit "- b")
  = lit "- a" ++ [LF; LF] ++ lit "- b" ++ [LF].
Proof. reflexivity. Qed.

(** ** The entry pipeline *)

Section ConverterFacts.

Context {L : Library}.

(** The try block and its handler, in one equation: the entry shows its
    local date and adds it to [dates], or shows its raw timestamp and
    leaves [dates] alone.  The result is never an exception. *)
Lemma format_date_converted (entry : Entry) (dates : list datetime) :
  format_date entry dates
  = match converted entry with
    | Some local_date =>
        (Ok (strftime local_date display_format), dates ++ [local_date])
    | None => (Ok (creationDate entry), dates)
    end.
Proof.
  unfold format_date, converted, local_timezone_of, creation_format.
  unfold Eff.try_except, Eff.bind, Eff.call, Eff.ret, Eff.append.
  destruct (strptime (creationDate entry) (lit "%Y-%m-%dT%H:%M:%SZ"))
    as [date|e]; [|reflexivity].
  destruct (timeZone entry) as [name|].
  - destruct (Py.truthy name).
    + destruct (pytz_timezone name) as [zone|e]; [|reflexivity].
      destruct (astimezone (replace_tzinfo date pytz_UTC) zone);
        reflexivity.
    + destruct (astimezone (replace_tzinfo date pytz_UTC) pytz_UTC);
        reflexivity.
  - destruct (astimezone (replace_tzinfo date pytz_UTC) pytz_UTC);
      reflexivity.
Qed.

Lemma format_date_dates (entry : Entry) (dates : list datetime) :
  snd (format_date entry dates) = dates ++ entry_dates entry.
Proof.
  rewrite format_date_converted. unfold entry_dates.
  destruct (converted entry); simpl; [reflexivity|].
  symmetry. apply app_nil_r.
Qed.

Lemma format_date_ok (entry : Entry) (dates : list datetime) :
  exists date_fmt, fst (format_date entry dates) = Ok date_fmt.
Proof.
  rewrite format_date_converted. destruct (converted entry); eexists;
    reflexivity.
Qed.

Lemma entries_loop_dates (entries : list Entry) :
  forall dates,
    snd (entries_loop entries dates)
    = dates ++ flat_map entry_dates entries.
Proof.
  induction entries as [|entry rest IH]; intro dates.
  - simpl. symmetry. apply app_nil_r.
  - cbn [entries_loop flat_map]. unfold Eff.bind at 1.
    pose proof (format_date_dates entry dates) as Hd.
    destruct (format_date_ok entry dates) as [date_fmt Hf].
    destruct (format_date entry dates) as [r dates']. simpl in Hd, Hf.
    subst r dates'. unfold Eff.bind.
    specialize (IH (dates ++ entry_dates entry)).
    destruct (entries_loop rest (dates ++ entry_dates entry)) as [r d'].
    simpl in IH. subst d'. destruct r; simpl; symmetry; apply app_assoc.
Qed.

(** [dates] holds the local dates of the entries that reach one. *)
Lemma dates_of_entries (entries : list Entry) :
  dates_of entries = flat_map entry_dates entries.
Proof. unfold dates_of. apply entries_loop_dates. Qed.

(** C2: an entry whose timestamp [strptime] refuses shows the raw
    timestamp, with no exception, and adds nothing to [dates]: the date
    range is what it is without the entry. *)
Theorem malformed_date_shown_verbatim (entry : Entry) (e : exn) :
  strptime (creationDate entry) (lit "%Y-%m-%dT%H:%M:%SZ") = Raise e ->
  (forall dates,
      format_date entry dates = (Ok (creationDate entry), dates))
  /\ (forall before after,
        dates_of (before ++ entry :: after) = dates_of (before ++ after)
        /\ date_range_str (dates_of (before ++ entry :: after))
           = date_range_str (dates_of (before ++ after))).
Proof.
  intro Hp.
  assert (Hc : converted entry = None).
  { unfold converted, creation_format. rewrite Hp. reflexivity. }
  split.
  - intro dates. rewrite format_date_converted, Hc. reflexivity.
  - intros before after.
    assert (Hd : dates_of (before ++ entry :: after)
                 = dates_of (before ++ after)).
    { rewrite !dates_of_entries, !flat_map_app. cbn [flat_map].
      unfold entry_dates at 2. rewrite Hc. reflexivity. }
    split; [exact Hd | rewrite Hd; reflexivity].
Qed.

(** C3, as the code has it: for a timestamp that parses, a zone name that
    is present and known gives the date converted to that zone; no zone
    name, or an empty one, gives the date in UTC; and a zone name that
    pytz does not know gives the raw timestamp, with nothing added to
    [dates].  (A converted date is shown when the conversion itself stays
    in the range of dates.) *)
Theorem date_shown_in_zone (entry : Entry) (dates : list datetime)
    (date : datetime) :
  strptime (creationDate entry) (lit "%Y-%m-%dT%H:%M:%SZ") = Ok date ->
  (forall name zone local_date,
      timeZone entry = Some name -> Py.truthy name = true ->
      pytz_timezone name = Ok zone ->
      astimezone (replace_tzinfo date pytz_UTC) zone = Ok local_date ->
      format_date entry dates
      = (Ok (strftime local_date (lit "%d %b %Y %I:%M %p")),
         dates ++ [local_date]))
  /\ (forall local_date,
        truthy_str (timeZone entry) = false ->
        astimezone (replace_tzinfo date pytz_UTC) pytz_UTC = Ok local_date ->
        format_date entry dates
        = (Ok (strftime local_date (lit "%d %b %Y %I:%M %p")),
           dates ++ [local_date]))
  /\ (forall name e,
        timeZone entry = Some name -> Py.truthy name = true ->
        pytz_timezone name = Raise e ->
        format_date entry dates = (Ok (creationDate entry), dates)).
Proof.
  intro Hp. rewrite format_date_converted.
  unfold converted, local_timezone_of, creation_format. rewrite Hp.
  repeat split.
  - intros name zone local_date Hn Ht Hz Ha. rewrite Hn, Ht, Hz, Ha.
    reflexivity.
  - intros local_date Ht Ha. unfold truthy_str in Ht.
    destruct (timeZone entry) as [name|]; [rewrite Ht|]; rewrite Ha;
      reflexivity.
  - intros name e Hn Ht Hz. rewrite Hn, Ht, Hz. reflexivity.
Qed.

Lemma truthy_nonempty (s : str) : Py.truthy s = negb (str_eqb s []).
Proof. rewrite str_eqb_nil. destruct s; reflexivity. Qed.

Lemma truthy_true_iff (s : str) : Py.truthy s = true <-> s <> [].
Proof. destruct s; simpl; split; congruence. Qed.

Lemma location_link_nonempty (url text : str) : location_link url text <> [].
Proof. discriminate. Qed.

(** C6: an entry whose latitude and longitude are both there, and pass
    the test [if lat and lng], gets the map link whose text is the place,
    the locality and the country that are not empty, in this order, joined
    with a comma and a space; a location line that is not empty belongs to
    an entry that has both a latitude and a longitude, and it is that
    link; an entry that lacks the latitude or the longitude has an empty
    location line, whatever its place, locality and country. *)
Theorem location_link_needs_coordinates (entry : Entry) :
  (forall latitude longitude,
      lat entry = Some latitude -> lng entry = Some longitude ->
      number_truthy latitude = true -> number_truthy longitude = true ->
      location_html entry
      = location_link
          (maps_url latitude longitude)
          (Py.join (lit ", ")
             (filter (fun s => negb (str_eqb s []))
                [place entry; locality entry; country_of entry]))
      /\ location_html entry <> [])
  /\ (location_html entry <> [] ->
      exists latitude longitude,
        lat entry = Some latitude /\ lng entry = Some longitude
        /\ location_html entry
           = location_link
               (maps_url latitude longitude)
               (Py.join (lit ", ")
                  (filter (fun s => negb (str_eqb s []))
                     [place entry; locality entry; country_of entry])))
  /\ (lat entry = None \/ lng entry = None -> location_html entry = []).
Proof.
  assert (Htext : location_text (place entry) (locality entry)
                                (country_of entry)
                  = Py.join (lit ", ")
                      (filter (fun s => negb (str_eqb s []))
                         [place entry; locality entry; country_of entry])).
  { unfold location_text. f_equal. apply filter_ext. exact truthy_nonempty. }
  unfold location_html. split; [|split].
  - intros la lo -> -> Hla Hlo. rewrite Hla, Hlo. cbn [andb].
    rewrite Htext. split; [reflexivity | apply location_link_nonempty].
  - destruct (lat entry) as [la|]; [|congruence].
    destruct (lng entry) as [lo|]; [|congruence].
    destruct (number_truthy la && number_truthy lo); [|congruence].
    intros _. exists la, lo. rewrite Htext. repeat split.
  - intros [H|H]; rewrite H; [reflexivity|].
    destruct (lat entry); reflexivity.
Qed.


Lemma forallb_of_map (A B : Type) (f : A -> B) (p : B -> bool)
    (l : list A) :
  forallb p (map f l) = forallb (fun a => p (f a)) l.
Proof.
  induction l as [|a l IH]; [reflexivity|]. simpl. rewrite IH. reflexivity.
Qed.

Lemma try_exts_first (photos_dir filename : str) (before : list str) :
  forall ext after,
    forallb (fun e => negb (path_exists
                              (path_join photos_dir (filename ++ e))))
            before = true ->
    path_exists (path_join photos_dir (filename ++ ext)) = true ->
    try_exts photos_dir filename (before ++ ext :: after)
    = [photo_html (path_join photos_dir (filename ++ ext))].
Proof.
  induction before as [|b before IH]; intros ext after Hb He.
  - cbn [app try_exts]. rewrite He. reflexivity.
  - cbn [forallb] in Hb. apply andb_true_iff in Hb. destruct Hb as [Hb Hr].
    apply negb_true_iff in Hb. cbn [app try_exts]. rewrite Hb.
    apply IH; assumption.
Qed.

Lemma try_exts_none (photos_dir filename : str) (exts : list str) :
  forallb (fun e => negb (path_exists
                            (path_join photos_dir (filename ++ e))))
          exts = true ->
  try_exts photos_dir filename exts = [].
Proof.
  induction exts as [|b exts IH]; intro Hb; [reflexivity|].
  cbn [forallb] in Hb. apply andb_true_iff in Hb. destruct Hb as [Hb Hr].
  apply negb_true_iff in Hb. cbn [try_exts]. rewrite Hb. auto.
Qed.

(** C8: the file name of a photo is its [md5] when that is a text that is
    not empty, and its [identifier] otherwise; with a file name, the
    photo adds to the output the one tag of the first of its candidates
    (the extensions .jpg, .jpeg and .png, in this order) that exists; and
    it adds nothing when it has no file name or when no candidate
    exists. *)
Theorem photo_first_existing (photos_dir : str) (photo : MediaRef) :
  (forall hash, md5 photo = Some hash -> hash <> [] ->
                filename_of photo = Some hash)
  /\ (truthy_str (md5 photo) = false ->
      filename_of photo = identifier photo)
  /\ photo_exts = [lit ".jpg"; lit ".jpeg"; lit ".png"]
  /\ (forall filename before ext after,
        filename_of photo = Some filename -> filename <> [] ->
        photo_exts = before ++ ext :: after ->
        forallb (fun e => negb (path_exists
                                  (path_join photos_dir (filename ++ e))))
                before = true ->
        path_exists (path_join photos_dir (filename ++ ext)) = true ->
        photo_media photos_dir photo
        = [photo_html (path_join photos_dir (filename ++ ext))])
  /\ (forall filename,
        filename_of photo = Some filename ->
        forallb (fun p => negb (path_exists p))
                (candidates photos_dir filename) = true ->
        photo_media photos_dir photo = [])
  /\ (truthy_str (filename_of photo) = false ->
      photo_media photos_dir photo = []).
Proof.
  repeat split.
  - intros hash Hm Hh. unfold filename_of, py_or. rewrite Hm.
    apply truthy_true_iff in Hh. cbn [truthy_str]. rewrite Hh. reflexivity.
  - intro Hm. unfold filename_of, py_or. rewrite Hm. reflexivity.
  - intros filename before ext after Hf Hn Hx Hb He.
    unfold photo_media. rewrite Hf. apply truthy_true_iff in Hn.
    rewrite Hn, Hx. apply try_exts_first; assumption.
  - intros filename Hf Hc. unfold photo_media. rewrite Hf.
    destruct (Py.truthy filename); [|reflexivity].
    apply try_exts_none. unfold candidates in Hc.
    rewrite forallb_of_map in Hc. exact Hc.
  - intro Hf. unfold photo_media.
    destruct (filename_of photo) as [filename|]; [|reflexivity].
    cbn [truthy_str] in Hf. rewrite Hf. reflexivity.
Qed.

Lemma py_min_spec (others : list datetime) :
  forall first,
    In (py_min first others) (first :: others)
    /\ (instant (py_min first others) <= instant first)%Z
    /\ (forall d, In d others ->
                  (instant (py_min first others) <= instant d)%Z).
Proof.
  induction others as [|x others IH]; intro first.
  - simpl. repeat split; [left; reflexivity | lia | intros d []].
  - change (py_min first (x :: others))
      with (py_min (if (instant x <? instant first)%Z then x else first)
                   others).
    destruct (Z.ltb_spec (instant x) (instant first)) as [Hlt|Hge];
      destruct (IH x) as (Hx1 & Hx2 & Hx3);
      destruct (IH first) as (Hf1 & Hf2 & Hf3).
    + repeat split.
      * right. exact Hx1.
      * lia.
      * intros d [<-|Hd]; [exact Hx2 | apply Hx3, Hd].
    + repeat split.
      * destruct Hf1 as [Hf1|Hf1]; [left; exact Hf1 | right; right; exact Hf1].
      * exact Hf2.
      * intros d [<-|Hd]; [lia | apply Hf3, Hd].
Qed.

Lemma py_max_spec (others : list datetime) :
  forall first,
    In (py_max first others) (first :: others)
    /\ (instant first <= instant (py_max first others))%Z
    /\ (forall d, In d others ->
                  (instant d <= instant (py_max first others))%Z).
Proof.
  induction others as [|x others IH]; intro first.
  - simpl. repeat split; [left; reflexivity | lia | intros d []].
  - change (py_max first (x :: others))
      with (py_max (if (instant first <? instant x)%Z then x else first)
                   others).
    destruct (Z.ltb_spec (instant first) (instant x)) as [Hlt|Hge];
      destruct (IH x) as (Hx1 & Hx2 & Hx3);
      destruct (IH first) as (Hf1 & Hf2 & Hf3).
    + repeat split.
      * right. exact Hx1.
      * lia.
      * intros d [<-|Hd]; [exact Hx2 | apply Hx3, Hd].
    + repeat split.
      * destruct Hf1 as [Hf1|Hf1]; [left; exact Hf1 | right; right; exact Hf1].
      * exact Hf2.
      * intros d [<-|Hd]; [lia | apply Hf3, Hd].
Qed.

(** C9, as the code has it: [dates] holds, in order, the local date of
    every entry whose try block reached one (its timestamp parsed, its
    zone was found and the conversion stayed in range); the heading runs
    from a date of least instant to a date of greatest instant among
    them, and it is the phrase "No date information" when there is none,
    as when no timestamp parses. *)
Theorem date_range_of_dates (entries : list Entry) :
  dates_of entries = flat_map entry_dates entries
  /\ (dates_of entries = [] ->
      date_range_str (dates_of entries) = lit "No date information")
  /\ (dates_of entries <> [] ->
      exists start_date end_date,
        In start_date (dates_of entries)
        /\ In end_date (dates_of entries)
        /\ (forall d, In d (dates_of entries) ->
                      (instant start_date <= instant d <= instant end_date)%Z)
        /\ date_range_str (dates_of entries)
           = lit "from " ++ strftime start_date (lit "%d %b %Y")
               ++ lit " to " ++ strftime end_date (lit "%d %b %Y"))
  /\ ((forall entry, In entry entries ->
                     exists e, strptime (creationDate entry)
                                        (lit "%Y-%m-%dT%H:%M:%SZ")
                               = Raise e) ->
      date_range_str (dates_of entries) = lit "No date information").
Proof.
  split; [apply dates_of_entries|]. split; [intros ->; reflexivity|]. split.
  - destruct (dates_of entries) as [|d ds]; [congruence|]. intros _.
    destruct (py_min_spec ds d) as (Hm1 & Hm2 & Hm3).
    destruct (py_max_spec ds d) as (HM1 & HM2 & HM3).
    exists (py_min d ds), (py_max d ds). repeat split; try assumption.
    + destruct H as [<-|H]; [exact Hm2 | apply Hm3, H].
    + destruct H as [<-|H]; [exact HM2 | apply HM3, H].
  - intro Hall. rewrite dates_of_entries.
    assert (Hnil : flat_map entry_dates entries = []).
    { induction entries as [|entry rest IH]; [reflexivity|].
      cbn [flat_map]. rewrite IH by (intros x Hx; apply Hall; right; exact Hx).
      destruct (Hall entry (or_introl eq_refl)) as [e He].
      unfold entry_dates, converted, creation_format. rewrite He.
      reflexivity. }
    rewrite Hnil. reflexivity.
Qed.

End ConverterFacts.

(** ** The claims on the sample journal *)

#[local] Existing Instance Journal.lib.

Lemma malformed_date_shown_verbatim_witness :
  format_date Journal.undated [] = (Ok (lit "not-a-date"), []).
Proof.
  apply (proj1 (@malformed_date_shown_verbatim
                  Journal.lib Journal.undated ValueError eq_refl)).
Defined.

Lemma date_shown_in_zone_witness :
  format_date Journal.autumn []
  = (Ok (lit "05 Oct 2023 10:30 AM"),
     [{| Sample.seconds := 1696516200; Sample.tz := Some Sample.New_York |}]).
Proof.
  apply (proj1 (@date_shown_in_zone
                  Journal.lib Journal.autumn []
                  {| Sample.seconds := 1696516200; Sample.tz := None |}
                  eq_refl)
           (lit "America/New_York") Sample.New_York
           {| Sample.seconds := 1696516200; Sample.tz := Some Sample.New_York |});
    reflexivity.
Defined.

(** C3 as stated fails: with a timestamp that parses and a zone that pytz
    does not know, the entry shows its raw timestamp, not the date in UTC
    that the same timestamp shows with no zone, and [dates] stays empty. *)
Lemma unknown_zone_shows_raw_timestamp :
  strptime (Library := Journal.lib)
    (creationDate Journal.on_phobos) (lit "%Y-%m-%dT%H:%M:%SZ")
  = Ok {| Sample.seconds := 1672531200; Sample.tz := None |}
  /\ pytz_timezone (Library := Journal.lib) (lit "Mars/Phobos")
     = Raise UnknownTimeZoneError
  /\ format_date Journal.on_phobos [] = (Ok (lit "2023-01-01T00:00:00Z"), [])
  /\ fst (format_date Journal.new_year []) = Ok (lit "01 Jan 2023 12:00 AM")
  /\ fst (format_date Journal.on_phobos [])
     <> fst (format_date Journal.new_year []).
Proof.
  repeat split; try reflexivity. vm_compute. discriminate.
Qed.

Lemma location_link_needs_coordinates_witness :
  (location_html Journal.autumn
   = location_link (lit "https://www.google.com/maps?q=40,-74")
                   (lit "Cafe, United States")
   /\ location_html Journal.autumn <> [])
  /\ location_html Journal.undated = [].
Proof.
  split.
  - exact (proj1 (@location_link_needs_coordinates Journal.lib Journal.autumn)
             40%Z (-74)%Z eq_refl eq_refl eq_refl eq_refl).
  - apply (proj2 (proj2 (@location_link_needs_coordinates
                           Journal.lib Journal.undated))).
    left. reflexivity.
Defined.


Lemma photo_first_existing_witness :
  photo_media (lit "photos") Journal.snapshot
  = [photo_html (L := Journal.lib) (lit "photos/0a1b2c.jpeg")].
Proof.
  destruct (@photo_first_existing Journal.lib (lit "photos") Journal.snapshot)
    as (_ & _ & _ & H & _).
  apply (H (lit "0a1b2c") [lit ".jpg"] (lit ".jpeg") [lit ".png"]);
    [reflexivity | discriminate | reflexivity | reflexivity | reflexivity].
Defined.

Lemma date_range_of_dates_witness :
  date_range_str (dates_of [Journal.undated]) = lit "No date information".
Proof.
  destruct (@date_range_of_dates Journal.lib [Journal.undated])
    as (_ & H & _).
  apply H. reflexivity.
Defined.

(** C9 as stated fails: the timestamp of the first entry parses and is the
    earlier one, yet the heading starts at the second entry, because the
    zone of the first is unknown and the entry never reaches [dates]. *)
Lemma range_skips_parsed_instant :
  date_range_str (dates_of [Journal.on_phobos; Journal.summer])
  = lit "from 01 Jun 2024 to 01 Jun 2024"
  /\ date_range_str (parsed_instants [Journal.on_phobos; Journal.summer])
     = lit "from 01 Jan 2023 to 01 Jun 2024"
  /\ date_range_str (dates_of [Journal.on_phobos; Journal.summer])
     <> date_range_str (parsed_instants [Journal.on_phobos; Journal.summer]).
Proof.
  repeat split; try reflexivity. vm_compute. discriminate.
Qed.

(** The examples of the specification. *)
Example spec_date_example :
  fst (format_date Journal.autumn []) = Ok (lit "05 Oct 2023 10:30 AM").
Proof. reflexivity. Qed.

Example spec_weather_example :
  wx_line Journal.autumn = lit "21.0" ++ degrees_C ++ lit ", Clear".
Proof. reflexivity. Qed.

Example spec_location_example :
  location_html Journal.autumn
  = location_link (lit "https://www.google.com/maps?q=40,-74")
                  (lit "Cafe, United States").
Proof. reflexivity. Qed.

Example spec_no_entries : date_range_str (dates_of (L := Journal.lib) [])
                          = lit "No date information".
Proof. reflexivity. Qed.

Example spec_malformed_date_example :
  format_date Journal.undated [] = (Ok (lit "not-a-date"), []).
Proof. reflexivity. Qed.

Example spec_location_omitted_example :
  location_html Journal.undated = []
  /\ place Journal.undated = lit "Home".
Proof. split; reflexivity. Qed.

(** A photo whose file exists as PNG only. *)
Example spec_png_only_example :
  photo_media (L := Sample.library [lit "photos/0a1b2c.png"])
    (lit "photos") {| md5 := Some (lit "0a1b2c"); identifier := None |}
  = [photo_html (L := Sample.library [lit "photos/0a1b2c.png"])
       (lit "photos/0a1b2c.png")].
Proof. reflexivity. Qed.

Example two_entries_range :
  date_range_str (dates_of [Journal.summer; Journal.autumn])
  = lit "from 05 Oct 2023 to 01 Jun 2024".
Proof. reflexivity. Qed.

(** ** More about the normalizer *)

Lemma emit_keeps_text (lines : list str) :
  forall b,
    filter (fun l => negb (str_eqb l [])) (emit b lines)
    = filter (fun l => negb (str_eqb l [])) lines.
Proof.
  induction lines as [|line rest IH]; intro b; [reflexivity|].
  cbn [emit]. rewrite filter_app. cbn [filter]. rewrite IH.
  destruct (list_start_re_match line && negb b); reflexivity.
Qed.

Lemma ensure_trailing_cases (out : list str) :
  ensure_trailing out = out \/ ensure_trailing out = out ++ [[]].
Proof.
  unfold ensure_trailing. destruct out; [left; reflexivity|].
  destruct (negb _); [right | left]; reflexivity.
Qed.

(** X1: the normalizer changes no line that is not empty and drops none:
    the lines of the output that are not empty are those of the input, in
    the same order.  All it adds are empty lines. *)
Theorem normalize_keeps_text_lines (x : str) :
  filter (fun l => negb (str_eqb l [])) (normalized_lines x)
  = filter (fun l => negb (str_eqb l [])) (Py.splitlines x).
Proof.
  rewrite normalized_lines_emit.
  destruct (ensure_trailing_cases (emit true (Py.splitlines x))) as [E|E];
    rewrite E.
  - apply emit_keeps_text.
  - rewrite filter_app. cbn [filter str_eqb]. simpl.
    rewrite app_nil_r. apply emit_keeps_text.
Qed.

Lemma emit_head (lines : list str) (b : bool) (l : str) (rest : list str) :
  emit b lines = l :: rest -> list_start_re_match l = true -> b = true.
Proof.
  destruct lines as [|line lines]; [discriminate|]. cbn [emit].
  destruct (list_start_re_match line && negb b) eqn:E.
  - intros [= <- _] Hl. rewrite empty_not_list_item in Hl. discriminate Hl.
  - intros [= <- _] Hl. rewrite Hl in E. destruct b; [reflexivity|discriminate E].
Qed.

Lemma emit_separated (lines : list str) :
  forall b before p l rest,
    emit b lines = before ++ p :: l :: rest ->
    list_start_re_match l = true ->
    str_eqb (Py.strip p) [] = true.
Proof.
  induction lines as [|line lines IH]; intros b before p l rest He Hl.
  - destruct before; discriminate He.
  - cbn [emit] in He.
    destruct (list_start_re_match line && negb b).
    + cbn [app] in He. destruct before as [|x before].
      * injection He as <- _ _. reflexivity.
      * injection He as _ He. destruct before as [|y before].
        -- injection He as <- He. exact (@emit_head _ _ _ _ He Hl).
        -- injection He as _ He. exact (IH _ _ _ _ _ He Hl).
    + cbn [app] in He. destruct before as [|x before].
      * injection He as <- He. exact (@emit_head _ _ _ _ He Hl).
      * injection He as _ He. exact (IH _ _ _ _ _ He Hl).
Qed.

(** X2: what the normalizer is for.  In its output a list item line never
    comes right after a line that is not blank: the line before it, if there
    is one, is blank. *)
Theorem list_item_follows_blank
    (x : str) (before : list str) (p l : str) (rest : list str) :
  normalized_lines x = before ++ p :: l :: rest ->
  list_start_re_match l = true ->
  str_eqb (Py.strip p) [] = true.
Proof.
  rewrite normalized_lines_emit. intros Hx Hl.
  destruct (ensure_trailing_cases (emit true (Py.splitlines x))) as [E|E];
    rewrite E in Hx.
  - exact (@emit_separated _ _ _ _ _ _ Hx Hl).
  - destruct rest as [|r rest _] using rev_ind.
    + change (before ++ [p; l]) with (before ++ [p] ++ [l]) in Hx.
      rewrite app_assoc in Hx. apply app_inj_tail in Hx.
      destruct Hx as [_ <-]. rewrite empty_not_list_item in Hl.
      discriminate Hl.
    + change (before ++ p :: l :: rest ++ [r])
        with (before ++ (p :: l :: rest) ++ [r]) in Hx.
      rewrite app_assoc in Hx. apply app_inj_tail in Hx.
      destruct Hx as [Hx _]. exact (@emit_separated _ _ _ _ _ _ Hx Hl).
Qed.

Lemma list_item_follows_blank_witness :
  str_eqb (Py.strip []) [] = true.
Proof.
  apply (@list_item_follows_blank
           (lit "Shopping:" ++ LF :: lit "1. eggs")
           [lit "Shopping:"] [] (lit "1. eggs") [[]]);
    reflexivity.
Defined.

Lemma join_line_feeds (out : list str) :
  Forall nobreak out ->
  Forall (fun c => Py.islinebreak c = true -> c = LF) (Py.join [LF] out).
Proof.
  induction 1 as [|p ps Hp Hps IH]; [constructor|].
  assert (Hp' : Forall (fun c => Py.islinebreak c = true -> c = LF) p).
  { eapply Forall_impl; [|exact Hp]. intros c Hc Hb. simpl in Hc. congruence. }
  destruct ps as [|q ps]; [exact Hp'|].
  change (Py.join [LF] (p :: q :: ps)) with (p ++ LF :: Py.join [LF] (q :: ps)).
  apply Forall_app. split; [exact Hp'|]. constructor; [reflexivity | exact IH].
Qed.

(** X3: the only line boundary left in the result is the line feed:
    carriage returns, CR LF pairs, form feeds and the Unicode line and
    paragraph separators of the input all come out as line feeds. *)
Theorem normalize_line_feeds_only (x : str) :
  Forall (fun c => Py.islinebreak c = true -> c = LF)
         (normalize_list_boundaries x).
Proof.
  unfold normalize_list_boundaries. apply join_line_feeds.
  rewrite normalized_lines_emit.
  apply ensure_trailing_nobreak, emit_nobreak, splitlines_nobreak.
Qed.

(** X4: on a text whose lines end with two empty lines a second pass is one
    line feed shorter than the first: the first result is the second one
    followed by a line feed. *)
Theorem second_pass_drops_line_feed (x : str) :
  ends_with_two_empty (Py.splitlines x) = true ->
  normalize_list_boundaries x
  = normalize_list_boundaries (normalize_list_boundaries x) ++ [LF].
Proof.
  intro Hx. unfold normalize_list_boundaries.
  rewrite !normalized_lines_emit.
  assert (HL : Forall nobreak (Py.splitlines x)) by apply splitlines_nobreak.
  rewrite splitlines_join
    by (apply ensure_trailing_nobreak, emit_nobreak, HL).
  assert (Hid : emit true (emit true (Py.splitlines x))
                = emit true (Py.splitlines x)) by apply emit_idem.
  clear HL. revert Hx Hid. unfold ends_with_two_empty.
  destruct (Py.splitlines x) as [|l L0 _] using rev_ind;
    [intro H; discriminate H|].
  rewrite rev_app_distr. cbn [rev app].
  destruct l as [|c l]; [|intro H; discriminate H].
  destruct L0 as [|l' L1 _] using rev_ind; [intro H; discriminate H|].
  rewrite rev_app_distr. cbn [rev app].
  destruct l' as [|c' l']; [|intro H; discriminate H].
  intros _ Hid. rewrite !emit_snoc, !empty_not_list_item in *.
  cbn [andb] in *. rewrite !app_nil_r in *.
  apply app_inj_tail in Hid. destruct Hid as [Hid _].
  rewrite ensure_trailing_snoc, strip_last_snoc, Hid, ensure_trailing_snoc.
  apply join_snoc. destruct (emit true L1); discriminate.
Qed.

Lemma second_pass_drops_line_feed_witness :
  normalize_list_boundaries (lit "a" ++ [LF; LF; LF])
  = normalize_list_boundaries
      (normalize_list_boundaries (lit "a" ++ [LF; LF; LF])) ++ [LF].
Proof. apply second_pass_drops_line_feed. reflexivity. Defined.

Lemma emit_no_items (lines : list str) :
  forallb (fun l => negb (list_start_re_match l)) lines = true ->
  forall b, emit b lines = lines.
Proof.
  induction lines as [|line rest IH]; intros H b; [reflexivity|].
  cbn [forallb] in H. apply andb_true_iff in H. destruct H as [Hl Hr].
  apply negb_true_iff in Hl. cbn [emit]. rewrite Hl, (IH Hr). reflexivity.
Qed.

(** X5: a text with no list item line keeps its lines as they are; the
    result is these lines joined with line feeds, after the check of the
    last line. *)
Theorem normalize_without_lists (x : str) :
  forallb (fun l => negb (list_start_re_match l)) (Py.splitlines x) = true ->
  normalize_list_boundaries x
  = Py.join [LF] (ensure_trailing (Py.splitlines x)).
Proof.
  intro H. unfold normalize_list_boundaries.
  rewrite normalized_lines_emit, (emit_no_items _ H). reflexivity.
Qed.

Lemma normalize_without_lists_witness :
  normalize_list_boundaries (lit "one" ++ [CR; LF] ++ lit "two")
  = Py.join [LF]
      (ensure_trailing (Py.splitlines (lit "one" ++ [CR; LF] ++ lit "two"))).
Proof. apply normalize_without_lists. reflexivity. Defined.

(** X6: no empty line is added where a list can already start: not before
    a list item on the first line of the text, and not between a blank line
    and the list item right after it. *)
Theorem no_blank_line_where_list_can_start (x : str) :
  (forall l post,
      Py.splitlines x = l :: post ->
      normalized_lines x
      = ensure_trailing (l :: emit (str_eqb (Py.strip l) []) post))
  /\ (forall pre p l post,
        Py.splitlines x = pre ++ p :: l :: post ->
        str_eqb (Py.strip p) [] = true ->
        normalized_lines x
        = ensure_trailing
            (emit true (pre ++ [p])
               ++ l :: emit (str_eqb (Py.strip l) []) post)).
Proof.
  split.
  - intros l post Hx. rewrite normalized_lines_emit, Hx. cbn [emit].
    rewrite andb_false_r. reflexivity.
  - intros pre p l post Hx Hp. rewrite normalized_lines_emit, Hx.
    change (pre ++ p :: l :: post) with (pre ++ [p] ++ l :: post).
    rewrite app_assoc, emit_app, blank_after_snoc, Hp. cbn [emit].
    rewrite andb_false_r. reflexivity.
Qed.

Lemma no_blank_line_where_list_can_start_witness :
  normalized_lines (lit "- a" ++ LF :: LF :: lit "- b")
  = ensure_trailing
      (emit true ([lit "- a"] ++ [[]])
         ++ lit "- b" :: emit (str_eqb (Py.strip (lit "- b")) []) []).
Proof.
  apply (proj2 (no_blank_line_where_list_can_start
                  (lit "- a" ++ LF :: LF :: lit "- b"))
           [lit "- a"] [] (lit "- b") []);
    reflexivity.
Defined.

(** ** The preview of an entry and its anchor *)

Lemma splitlines_first (c : char) (s : str) :
  exists l ls, Py.splitlines (c :: s) = l :: ls.
Proof.
  cbn [Py.splitlines]. destruct (Py.islinebreak c); [eauto|].
  destruct (Py.splitlines s); eauto.
Qed.

Lemma uint_digits (d : Decimal.uint) :
  Forall (fun c => is_digit c = true) (lit (NilEmpty.string_of_uint d)).
Proof.
  induction d; cbn; constructor; try reflexivity; exact IHd.
Qed.

Lemma str_of_nat_digits (n : nat) :
  Forall (fun c => is_digit c = true) (str_of_nat n).
Proof.
  unfold str_of_nat, NilZero.string_of_uint.
  destruct (Nat.to_uint n) eqn:E; try (rewrite <- E; apply uint_digits).
  repeat constructor.
Qed.

Lemma digit_not_linebreak (c : char) :
  is_digit c = true -> Py.islinebreak c = false.
Proof.
  intro H. apply not_space_not_linebreak, digit_not_space, H.
Qed.

Lemma skip_hashes_split (s : str) :
  exists hs, s = hs ++ skip_hashes s /\ forallb is_hash hs = true.
Proof.
  induction s as [|c s (hs & E & H)]; [exists []; split; reflexivity|].
  simpl. destruct (is_hash c) eqn:Hc.
  - exists (c :: hs). split; [simpl; congruence | simpl; rewrite Hc; exact H].
  - exists []. split; reflexivity.
Qed.

Lemma skip_hashes_twice (s : str) : skip_hashes (skip_hashes s) = skip_hashes s.
Proof.
  induction s as [|c s IH]; [reflexivity|]. simpl.
  destruct (is_hash c) eqn:Hc; [exact IH|]. simpl. rewrite Hc. reflexivity.
Qed.

Lemma lstrip_twice (s : str) : Py.lstrip (Py.lstrip s) = Py.lstrip s.
Proof.
  induction s as [|c s IH]; [reflexivity|]. simpl.
  destruct (Py.isspace c) eqn:Hc; [exact IH|]. simpl. rewrite Hc. reflexivity.
Qed.

Lemma strip_heading_suffix (preview : str) :
  exists removed, preview = removed ++ strip_heading preview.
Proof.
  destruct preview as [|c rest]; [exists []; reflexivity|]. simpl.
  destruct (is_hash c); [|exists []; reflexivity].
  destruct (skip_hashes_split rest) as (hs & E & _).
  destruct (lstrip_split (skip_hashes rest)) as (ws & E' & _).
  exists (c :: hs ++ ws). simpl. rewrite <- app_assoc, <- E', <- E.
  reflexivity.
Qed.

(** X7: the preview is always there, and what it is.  The empty text gets
    [Entry] and the number of the entry; any other text has a first line,
    so that the index [[0]] is never out of range, and gets that line with
    its heading markers cut.  In both cases the preview holds no line
    boundary, so that the line of the table of contents breaks nowhere
    inside it. *)
Theorem preview_always_one_line (i : nat) (text : str) :
  (text = [] -> preview_of i text = Some (lit "Entry " ++ str_of_nat i))
  /\ (text <> [] ->
      exists line rest,
        Py.splitlines text = line :: rest
        /\ preview_of i text = Some (strip_heading line))
  /\ exists preview,
       preview_of i text = Some preview
       /\ Forall (fun c => Py.islinebreak c = false) preview.
Proof.
  unfold preview_of, first_line. destruct text as [|c s].
  - split; [intros _; reflexivity|]. split; [congruence|].
    cbn [Py.truthy option_map]. eexists. split; [reflexivity|].
    destruct (strip_heading_suffix (lit "Entry " ++ str_of_nat i))
      as [removed E].
    assert (H : Forall (fun c => Py.islinebreak c = false)
                       (lit "Entry " ++ str_of_nat i)).
    { apply Forall_app. split; [repeat constructor|].
      eapply Forall_impl; [|apply str_of_nat_digits].
      exact digit_not_linebreak. }
    rewrite E in H. apply Forall_app in H. tauto.
  - split; [discriminate|]. cbn [Py.truthy].
    pose proof (splitlines_nobreak (c :: s)) as Hnb.
    destruct (splitlines_first c s) as (l & ls & E). rewrite E in *.
    cbn [nth_error option_map].
    split; [intros _; exists l, ls; split; reflexivity|].
    eexists. split; [reflexivity|].
    inversion Hnb as [|? ? Hl _]; subst.
    destruct (strip_heading_suffix l) as [removed El].
    unfold nobreak in Hl. rewrite El in Hl. apply Forall_app in Hl. tauto.
Qed.

Lemma preview_always_one_line_witness :
  preview_of 3 [] = Some (lit "Entry 3")
  /\ exists line rest,
       Py.splitlines (lit "## Trip" ++ LF :: lit "- sea") = line :: rest
       /\ preview_of 3 (lit "## Trip" ++ LF :: lit "- sea")
          = Some (strip_heading line).
Proof.
  split.
  - apply (proj1 (preview_always_one_line 3 [])). reflexivity.
  - apply (proj1 (proj2 (preview_always_one_line
                           3 (lit "## Trip" ++ LF :: lit "- sea")))).
    discriminate.
Defined.

(** X8: what the substitution of [^#+\s*] removes.  A preview that does not
    start with [#] is left as it is.  From one that does, the leading [#]
    characters and the white space after them are cut, and no more: what
    is cut matches the pattern, what is left does not start with white
    space, nor with [#] unless white space was cut before it. *)
Theorem strip_heading_spec (preview : str) :
  (match preview with c :: _ => is_hash c | [] => false end = false ->
   strip_heading preview = preview)
  /\ (match preview with c :: _ => is_hash c | [] => false end = true ->
      exists hashes spaces,
        preview = hashes ++ spaces ++ strip_heading preview
        /\ matches heading_re (hashes ++ spaces)
        /\ forallb is_hash hashes = true
        /\ forallb Py.isspace spaces = true
        /\ Py.lstrip (strip_heading preview) = strip_heading preview
        /\ (spaces = [] ->
            skip_hashes (strip_heading preview) = strip_heading preview)).
Proof.
  destruct preview as [|c rest]; [split; [reflexivity | discriminate]|].
  cbn [strip_heading]. split; intro Hc; rewrite Hc; [reflexivity|].
  destruct (skip_hashes_split rest) as (hs & E & Hhs).
  destruct (lstrip_split (skip_hashes rest)) as (ws & E' & Hws).
  exists (c :: hs), ws. repeat split.
  - cbn [app]. rewrite <- E', <- E. reflexivity.
  - unfold heading_re. apply MSeq.
    + apply plus_class. exists c, hs. auto.
    + apply star_class. exact Hws.
  - simpl. rewrite Hc. exact Hhs.
  - exact Hws.
  - apply lstrip_twice.
  - intros ->. cbn [app] in E'. rewrite <- E'. apply skip_hashes_twice.
Qed.

Lemma strip_heading_spec_witness :
  exists hashes spaces,
    lit "## Trip" = hashes ++ spaces ++ strip_heading (lit "## Trip")
    /\ matches heading_re (hashes ++ spaces)
    /\ forallb is_hash hashes = true
    /\ forallb Py.isspace spaces = true
    /\ Py.lstrip (strip_heading (lit "## Trip")) = strip_heading (lit "## Trip")
    /\ (spaces = [] ->
        skip_hashes (strip_heading (lit "## Trip"))
        = strip_heading (lit "## Trip")).
Proof.
  apply (proj2 (strip_heading_spec (lit "## Trip"))). reflexivity.
Defined.

Lemma lit_inj (a b : string) : lit a = lit b -> a = b.
Proof.
  unfold lit. intro H.
  assert (Hl : list_ascii_of_string a = list_ascii_of_string b).
  { revert H. generalize (list_ascii_of_string a) (list_ascii_of_string b).
    induction l as [|x l IH]; intros [|y l']; simpl; try discriminate;
      [reflexivity|].
    intros [= Hxy Hr]. f_equal; [|exact (IH _ Hr)].
    rewrite <- (ascii_N_embedding x), <- (ascii_N_embedding y), Hxy.
    reflexivity. }
  rewrite <- (string_of_list_ascii_of_string a),
          <- (string_of_list_ascii_of_string b), Hl.
  reflexivity.
Qed.

Lemma to_uint_not_nil (n : nat) : Nat.to_uint n <> Decimal.Nil.
Proof.
  intro H. pose proof (DecimalNat.Unsigned.of_to n) as Hn.
  rewrite H in Hn. simpl in Hn. subst n. discriminate H.
Qed.

Lemma str_of_nat_inj (i j : nat) : str_of_nat i = str_of_nat j -> i = j.
Proof.
  unfold str_of_nat. intro H. apply lit_inj in H.
  apply DecimalNat.Unsigned.to_uint_inj.
  pose proof (NilZero.usu _ (to_uint_not_nil i)) as Hi.
  pose proof (NilZero.usu _ (to_uint_not_nil j)) as Hj.
  rewrite H in Hi. rewrite Hi in Hj. injection Hj as Hj. exact Hj.
Qed.

(** X9: two entries never share an anchor: the link of an entry in the
    table of contents leads to the card of this entry and to no other. *)
Theorem anchors_distinct (i j : nat) :
  i <> j -> anchor i <> anchor j.
Proof.
  intros Hij H. unfold anchor in H. apply app_inv_head in H.
  apply Hij, str_of_nat_inj, H.
Qed.

Lemma anchors_distinct_witness : anchor 1 <> anchor 11.
Proof. apply anchors_distinct. discriminate. Defined.

(** ** Videos, audio and the media block *)

Section RenderingFacts.

Context {L : Library}.

Lemma try_mimes_first (dir filename : str) (before : list (str * str)) :
  forall ext mime after,
    forallb (fun em => negb (path_exists
                               (path_join dir (filename ++ fst em))))
            before = true ->
    path_exists (path_join dir (filename ++ ext)) = true ->
    try_mimes dir filename (before ++ (ext, mime) :: after)
    = [video_div (path_join dir (filename ++ ext)) mime].
Proof.
  induction before as [|[e m] before IH]; intros ext mime after Hb He.
  - cbn [app try_mimes]. rewrite He. reflexivity.
  - cbn [forallb fst] in Hb. apply andb_true_iff in Hb.
    destruct Hb as [Hb Hr]. apply negb_true_iff in Hb.
    cbn [app try_mimes]. rewrite Hb. apply IH; assumption.
Qed.

Lemma try_mimes_none (dir filename : str) (items : list (str * str)) :
  forallb (fun em => negb (path_exists
                             (path_join dir (filename ++ fst em))))
          items = true ->
  try_mimes dir filename items = [].
Proof.
  induction items as [|[e m] items IH]; intro Hb; [reflexivity|].
  cbn [forallb fst] in Hb. apply andb_true_iff in Hb. destruct Hb as [Hb Hr].
  apply negb_true_iff in Hb. cbn [try_mimes]. rewrite Hb. auto.
Qed.

(** X10: a video adds the one tag of the first of its candidates (the
    extensions .mp4, .mov and .webm, in this order) that exists, with the
    path as it was joined and the type of the mapping, which serves .mov
    files as video/mp4; it adds nothing when no candidate exists or when
    it has no file name. *)
Theorem video_first_existing (dir : str) (video : MediaRef) :
  mime_map = [(lit ".mp4", lit "video/mp4"); (lit ".mov", lit "video/mp4");
              (lit ".webm", lit "video/webm")]
  /\ (forall filename before ext mime after,
        filename_of video = Some filename -> filename <> [] ->
        mime_map = before ++ (ext, mime) :: after ->
        forallb (fun em => negb (path_exists
                                   (path_join dir (filename ++ fst em))))
                before = true ->
        path_exists (path_join dir (filename ++ ext)) = true ->
        video_media dir video
        = [video_div (path_join dir (filename ++ ext)) mime])
  /\ (forall filename,
        filename_of video = Some filename ->
        forallb (fun em => negb (path_exists
                                   (path_join dir (filename ++ fst em))))
                mime_map = true ->
        video_media dir video = [])
  /\ (truthy_str (filename_of video) = false -> video_media dir video = []).
Proof.
  split; [reflexivity|]. repeat split.
  - intros filename before ext mime after Hf Hn Hx Hb He.
    unfold video_media. rewrite Hf. apply truthy_true_iff in Hn.
    rewrite Hn, Hx. apply try_mimes_first; assumption.
  - intros filename Hf Hc. unfold video_media. rewrite Hf.
    destruct (Py.truthy filename); [|reflexivity].
    apply try_mimes_none, Hc.
  - intro Hf. unfold video_media.
    destruct (filename_of video) as [filename|]; [|reflexivity].
    cbn [truthy_str] in Hf. rewrite Hf. reflexivity.
Qed.

Lemma try_exts_short (dir filename : str) (exts : list str) :
  List.length (try_exts dir filename exts) <= 1.
Proof.
  induction exts as [|e exts IH]; [simpl; lia|]. cbn [try_exts].
  destruct (path_exists _); [simpl; lia | exact IH].
Qed.

Lemma try_mimes_short (dir filename : str) (items : list (str * str)) :
  List.length (try_mimes dir filename items) <= 1.
Proof.
  induction items as [|[e m] items IH]; [simpl; lia|]. cbn [try_mimes].
  destruct (path_exists _); [simpl; lia | exact IH].
Qed.

Lemma flat_map_short (A B : Type) (f : A -> list B) (l : list A) :
  (forall a, List.length (f a) <= 1) ->
  List.length (flat_map f l) <= List.length l.
Proof.
  intro Hf. induction l as [|a l IH]; [simpl; lia|].
  cbn [flat_map]. rewrite length_app. specialize (Hf a). simpl. lia.
Qed.

(** X11: a photo, a video or an audio adds at most one tag, however many
    of its candidate files exist: an entry shows no more media than it
    lists. *)
Theorem media_at_most_one_per_ref (dirs : Dirs) (item : Item) :
  List.length (media_html dirs item)
  <= List.length (photos (fields item)) + List.length (videos item)
     + List.length (audios item).
Proof.
  unfold media_html, photos_media. rewrite !length_app.
  assert (Hp : List.length (flat_map (photo_media (photos_dir dirs))
                                     (photos (fields item)))
               <= List.length (photos (fields item))).
  { apply flat_map_short. intro a. unfold photo_media.
    destruct (filename_of a) as [f|]; [|simpl; lia].
    destruct (Py.truthy f); [apply try_exts_short | simpl; lia]. }
  assert (Hv : List.length (flat_map (video_media (videos_dir dirs))
                                     (videos item))
               <= List.length (videos item)).
  { apply flat_map_short. intro a. unfold video_media.
    destruct (filename_of a) as [f|]; [|simpl; lia].
    destruct (Py.truthy f); [apply try_mimes_short | simpl; lia]. }
  assert (Ha : List.length (flat_map (audio_media (audio_dir dirs))
                                     (audios item))
               <= List.length (audios item)).
  { apply flat_map_short. intro a. unfold audio_media.
    destruct (filename_of a) as [f|]; [|simpl; lia].
    destruct (Py.truthy f); [|simpl; lia].
    destruct (path_exists _); simpl; lia. }
  lia.
Qed.

Lemma flat_map_nil (A B : Type) (f : A -> list B) (l : list A) :
  (forall a, f a = []) -> flat_map f l = [].
Proof.
  intro Hf. induction l as [|a l IH]; [reflexivity|].
  cbn [flat_map]. rewrite Hf, IH. reflexivity.
Qed.

(** X12: the media block is empty exactly when no media was found, and
    with none of the files on disk no entry gets a media block, whatever
    media it lists. *)
Theorem no_files_no_media_block (dirs : Dirs) (item : Item) :
  (media_block_of (media_html dirs item) = [] <-> media_html dirs item = [])
  /\ ((forall p, path_exists p = false) ->
      media_block_of (media_html dirs item) = []).
Proof.
  split.
  - destruct (media_html dirs item); split; try reflexivity; discriminate.
  - intro Hno.
    assert (Ht : forall d f exts, try_exts d f exts = []).
    { intros d f exts. induction exts as [|e exts IH]; [reflexivity|].
      cbn [try_exts]. rewrite Hno. exact IH. }
    assert (Hm : forall d f items, try_mimes d f items = []).
    { intros d f items. induction items as [|[e m] items IH]; [reflexivity|].
      cbn [try_mimes]. rewrite Hno. exact IH. }
    unfold media_html, photos_media.
    rewrite !flat_map_nil; [reflexivity| | |].
    + intro a. unfold audio_media. destruct (filename_of a) as [f|]; [|reflexivity].
      destruct (Py.truthy f); [|reflexivity]. rewrite Hno. reflexivity.
    + intro a. unfold video_media. destruct (filename_of a) as [f|]; [|reflexivity].
      destruct (Py.truthy f); [apply Hm | reflexivity].
    + intro a. unfold photo_media. destruct (filename_of a) as [f|]; [|reflexivity].
      destruct (Py.truthy f); [apply Ht | reflexivity].
Qed.

Lemma replace_without (old : char) (new s : str) :
  existsb (N.eqb old) new = false ->
  existsb (N.eqb old) (Py.replace old new s) = false.
Proof.
  intro Hn. unfold Py.replace. induction s as [|c s IH]; [reflexivity|].
  cbn [flat_map]. rewrite existsb_app. apply orb_false_iff.
  split; [|exact IH].
  destruct (N.eqb_spec c old) as [->|Hc]; [exact Hn|].
  cbn [existsb]. rewrite orb_false_r. apply N.eqb_neq. congruence.
Qed.

Lemma quotes_escaped (u : str) :
  forall a b,
    Py.replace 39%N [92%N; 39%N] u = a ++ 39%N :: b ->
    exists a', a = a' ++ [92%N].
Proof.
  unfold Py.replace. induction u as [|c u IH]; intros a b H.
  - destruct a; discriminate H.
  - cbn [flat_map] in H. destruct (N.eqb_spec c 39%N) as [->|Hc].
    + cbn [app] in H. destruct a as [|x a]; [discriminate H|].
      injection H as <- H. destruct a as [|y a].
      * exists []. reflexivity.
      * injection H as <- H. destruct (IH _ _ H) as [a' ->].
        exists (92%N :: 39%N :: a'). reflexivity.
    + cbn [app] in H. destruct a as [|x a].
      * injection H as H _. congruence.
      * injection H as <- H. destruct (IH _ _ H) as [a' ->].
        exists (c :: a'). reflexivity.
Qed.

(** X13: the address of a photo.  The tag of a photo shows the address
    [photo_url] and opens it with every single quote escaped: in the text
    placed between the quotes of the script each single quote comes after
    a backslash.  When the path separator of the system is none of the
    characters of [file:///], the address holds no path separator: all
    were turned into slashes. *)
Theorem photo_address (path : str) :
  photo_html path
  = photo_div (photo_url path) (Py.replace 39%N [92%N; 39%N] (photo_url path))
  /\ (forall a b,
        Py.replace 39%N [92%N; 39%N] (photo_url path) = a ++ 39%N :: b ->
        exists a', a = a' ++ [92%N])
  /\ (existsb (N.eqb os_sep) (lit "file:///") = false ->
      existsb (N.eqb os_sep) (photo_url path) = false).
Proof.
  split; [reflexivity|]. split; [apply quotes_escaped|].
  intro Hs. unfold photo_url. rewrite existsb_app. apply orb_false_iff.
  split; [exact Hs|]. apply replace_without.
  destruct (N.eqb_spec os_sep 47%N) as [E|E].
  - rewrite E in Hs. vm_compute in Hs. discriminate Hs.
  - change (lit "/") with [47%N]. cbn [existsb]. rewrite orb_false_r.
    apply N.eqb_neq. exact E.
Qed.

End RenderingFacts.

Lemma video_first_existing_witness :
  video_media (L := Album.lib) (lit "videos") Album.clip
  = [video_div (lit "videos/c1d2.mov") (lit "video/mp4")].
Proof.
  destruct (@video_first_existing Album.lib (lit "videos") Album.clip)
    as (_ & H & _).
  apply (H (lit "c1d2") [(lit ".mp4", lit "video/mp4")] (lit ".mov")
           (lit "video/mp4") [(lit ".webm", lit "video/webm")]);
    [reflexivity | discriminate | reflexivity | reflexivity | reflexivity].
Defined.

Lemma no_files_no_media_block_witness :
  media_block_of (media_html Album.dirs (Album.trip_on Album.bare)) = [].
Proof.
  apply (proj2 (@no_files_no_media_block
                  Album.bare Album.dirs (Album.trip_on Album.bare))).
  intro p. reflexivity.
Defined.

Lemma photo_address_witness :
  existsb (N.eqb 92%N)
          (photo_url (L := Album.backslash_lib) (lit "photos\0a1b2c.jpg"))
  = false.
Proof.
  apply (proj2 (proj2 (@photo_address Album.backslash_lib
                         (lit "photos\0a1b2c.jpg")))).
  reflexivity.
Defined.

(** ** The date block and the loop as a whole *)

Section LoopFacts.

Context {L : Library}.

Variable markdown : str -> option str.

Variable overflows : number -> bool.

(** X14: the date block lets no exception out, whatever the entry holds.
    It keeps what [dates] held, adds at most one date after it, and what it
    shows and adds is what it shows and adds when [dates] is empty. *)
Theorem date_block_never_raises (entry : Entry) (dates : list datetime) :
  exists date_fmt added,
    format_date entry dates = (Ok date_fmt, dates ++ added)
    /\ List.length added <= 1
    /\ format_date entry [] = (Ok date_fmt, added).
Proof.
  rewrite !format_date_converted.
  destruct (converted entry) as [local_date|].
  - exists (strftime local_date display_format), [local_date].
    repeat split. simpl. lia.
  - exists (creationDate entry), []. rewrite app_nil_r.
    repeat split. simpl. lia.
Qed.

(** X15: the dates of a journal are the dates of its first part followed by
    those of the rest, and there is at most one for each entry. *)
Theorem dates_of_append (first rest : list Entry) :
  dates_of (first ++ rest) = dates_of first ++ dates_of rest
  /\ List.length (dates_of first) <= List.length first.
Proof.
  rewrite !dates_of_entries, flat_map_app. split; [reflexivity|].
  induction first as [|entry first IH]; [simpl; lia|].
  cbn [flat_map]. rewrite length_app. unfold entry_dates at 1.
  destruct (converted entry); simpl; lia.
Qed.

Lemma preview_exists (i : nat) (text : str) :
  exists preview, preview_of i text = Some preview.
Proof.
  unfold preview_of, first_line. destruct text as [|c s].
  - eexists. reflexivity.
  - cbn [Py.truthy]. destruct (splitlines_first c s) as (l & ls & ->).
    eexists. reflexivity.
Qed.

Lemma loop_body_spec (dirs : Dirs) (i : nat) (item : Item) (out : Output) :
  loop_body markdown overflows dirs i item out
  = if turn_raises markdown overflows item then None
    else Some {| entries_html :=
                   entries_html out ++ card_of markdown dirs i item;
                 toc_html := toc_html out ++ toc_line_of i item;
                 dates := dates out ++ entry_dates (fields item) |}.
Proof.
  unfold loop_body, turn_raises, card_of, text_html_of, toc_line_of,
    date_fmt_of, entry_dates.
  rewrite format_date_converted.
  destruct (preview_exists i (Py.strip (text (fields item)))) as [p ->].
  destruct (converted (fields item));
    destruct (markdown _); try reflexivity;
    destruct (wx_raises overflows (fields item)); try reflexivity.
  rewrite app_nil_r. reflexivity.
Qed.

Lemma loop_from_spec (dirs : Dirs) (items : list Item) :
  forall i out,
    loop_from markdown overflows dirs i items out
    = if existsb (turn_raises markdown overflows) items then None
      else Some {| entries_html :=
                     entries_html out ++ cards_from markdown dirs i items;
                   toc_html := toc_html out ++ toc_from i items;
                   dates := dates out
                              ++ flat_map entry_dates (map fields items) |}.
Proof.
  induction items as [|item rest IH]; intros i out.
  - simpl. rewrite !app_nil_r. destruct out; reflexivity.
  - cbn [loop_from existsb]. rewrite loop_body_spec.
    destruct (turn_raises markdown overflows item); [reflexivity|].
    cbn [orb]. rewrite IH.
    destruct (existsb (turn_raises markdown overflows) rest); [reflexivity|].
    cbn [entries_html toc_html dates cards_from toc_from map flat_map].
    rewrite <- !app_assoc. reflexivity.
Qed.

(** X16: when the loop is left by an exception, and what it gives when it
    is not.  An exception leaves the loop exactly when, for some entry, the
    renderer raises or the temperature cannot be formatted; the date block
    and the preview never make it stop.  Otherwise the loop keeps the order
    of the entries: the table of contents is the lines of the entries and
    the body is their cards, both in the order of the journal and numbered
    from 1, each line and card made from its own entry and number only;
    the dates are those the date blocks collect. *)
Theorem loop_keeps_order (dirs : Dirs) (items : list Item) :
  run_loop markdown overflows dirs items
  = if existsb (turn_raises markdown overflows) items then None
    else Some {| entries_html := cards_from markdown dirs 1 items;
                 toc_html := toc_from 1 items;
                 dates := dates_of (map fields items) |}.
Proof.
  unfold run_loop. rewrite loop_from_spec, dates_of_entries. reflexivity.
Qed.

Lemma toc_from_app (first rest : list Item) :
  forall i,
    toc_from i (first ++ rest)
    = toc_from i first ++ toc_from (i + List.length first) rest.
Proof.
  induction first as [|item first IH]; intro i.
  - simpl. rewrite Nat.add_0_r. reflexivity.
  - cbn [app toc_from List.length]. rewrite IH, <- app_assoc.
    rewrite Nat.add_succ_r. reflexivity.
Qed.

Lemma cards_from_app (dirs : Dirs) (first rest : list Item) :
  forall i,
    cards_from markdown dirs i (first ++ rest)
    = cards_from markdown dirs i first
        ++ cards_from markdown dirs (i + List.length first) rest.
Proof.
  induction first as [|item first IH]; intro i.
  - simpl. rewrite Nat.add_0_r. reflexivity.
  - cbn [app cards_from List.length]. rewrite IH, <- app_assoc.
    rewrite Nat.add_succ_r. reflexivity.
Qed.

(** X17: the loop only ever adds to what it has built.  When the loop runs
    to its end over a journal and over the same journal with more entries
    after it, the table of contents, the body and the dates of the first
    run are the beginning of those of the second: entries added at the end
    leave the lines, the cards and the anchors of the entries before them
    as they were. *)
Theorem loop_output_grows (dirs : Dirs) (first rest : list Item)
    (out out' : Output) :
  run_loop markdown overflows dirs first = Some out ->
  run_loop markdown overflows dirs (first ++ rest) = Some out' ->
  toc_html out' = toc_html out ++ toc_from (S (List.length first)) rest
  /\ entries_html out'
     = entries_html out
         ++ cards_from markdown dirs (S (List.length first)) rest
  /\ dates out' = dates out ++ dates_of (map fields rest).
Proof.
  unfold run_loop. rewrite !loop_from_spec, existsb_app.
  destruct (existsb (turn_raises markdown overflows) first);
    [discriminate|].
  cbn [orb].
  destruct (existsb (turn_raises markdown overflows) rest);
    [discriminate|].
  intros [= <-] [= <-]. cbn [entries_html toc_html dates app].
  rewrite toc_from_app, cards_from_app, map_app, flat_map_app,
    dates_of_entries.
  repeat split.
Qed.

End LoopFacts.

Lemma loop_output_grows_witness :
  toc_html
    {| entries_html :=
         cards_from Album.paragraph Album.dirs 1 [Album.trip; Album.blank];
       toc_html := toc_from 1 [Album.trip; Album.blank];
       dates := dates_of (map fields [Album.trip; Album.blank]) |}
  = toc_html
      {| entries_html :=
           cards_from Album.paragraph Album.dirs 1 [Album.trip];
         toc_html := toc_from 1 [Album.trip];
         dates := dates_of (map fields [Album.trip]) |}
      ++ toc_from 2 [Album.blank].
Proof.
  apply (@loop_output_grows Album.lib Album.paragraph Album.too_large
           Album.dirs [Album.trip] [Album.blank]);
    reflexivity.
Defined.

(** The loop is left on the entry whose temperature no float can hold. *)
Example loop_stops_on_huge_temperature :
  run_loop (L := Album.lib) Album.paragraph Album.too_large Album.dirs
    [Album.trip; Album.furnace; Album.blank]
  = None.
Proof. reflexivity. Qed.
